(** * remove_and_reindex_episodes.py: removal and renumbering of dataset episodes

    A shallow embedding of [remove_and_reindex] and of the Python primitives
    it relies on, followed by the properties of the renumbering.

    Conventions of the embedding:
    - a Python [int] is a [Z];
    - a directory is a finite map from file names to file payloads; a
      directory that does not exist behaves, for [exists] and [glob], like an
      empty one;
    - an exception is a value of [exn], and a computation that may raise
      returns a [result];
    - [print] calls write to the console only and are left out. *)

From Stdlib Require Import ZArith Ascii String DecimalString DecimalN.
From stdpp Require Import gmap strings list sorting.

Local Open Scope string_scope.
Local Open Scope list_scope.
Local Open Scope Z_scope.

(** ** Exceptions and results *)

Inductive exn : Type :=
  | FileNotFoundError
  | ValueError
  | IndexError
  | KeyError
  | TypeError
  | JSONDecodeError
  | UnsupportedFloat.  (* not a Python exception, see [as_int] *)

Inductive result (A : Type) : Type :=
  | Ok (a : A)
  | Raise (e : exn).
Arguments Ok {A} a.
Arguments Raise {A} e.

Definition bind {A B : Type} (r : result A) (k : A → result B) : result B :=
  match r with
  | Ok a => k a
  | Raise e => Raise e
  end.

Notation "x ← r ;;; k" := (bind r (λ x, k))
  (at level 20, r at level 100, k at level 200, right associativity,
   format "'[v' x  ←  r  ;;; '/' k ']'").

(** A comprehension or a loop body run over a list, stopping at the first
    exception. *)
Fixpoint traverse {A B : Type} (f : A → result B) (l : list A) : result (list B) :=
  match l with
  | [] => Ok []
  | x :: l' => y ← f x ;;; ys ← traverse f l' ;;; Ok (y :: ys)
  end.

Fixpoint for_each {S A : Type} (body : S → A → result S) (l : list A) (s : S) : result S :=
  match l with
  | [] => Ok s
  | x :: l' => s' ← body s x ;;; for_each body l' s'
  end.

(** ** Python primitives *)

Module Py.

(** [sorted(l)] on integers. *)
Definition sorted (l : list Z) : list Z := merge_sort Z.le l.

(** [sorted(set(l))]: the iteration order of the set is immaterial once
    sorted. *)
Definition sorted_set (l : list Z) : list Z :=
  sorted (elements (list_to_set l : gset Z)).

(** [s.split(sep)] for a separator of one character. *)
Fixpoint split (sep : ascii) (s : string) : list string :=
  match s with
  | EmptyString => [EmptyString]
  | String c s' =>
      if Ascii.eqb c sep then EmptyString :: split sep s'
      else match split sep s' with
           | h :: t => String c h :: t
           | [] => [String c EmptyString]
           end
  end.

(** [l[i]] on a list. *)
Definition index {A : Type} (l : list A) (i : nat) : result A :=
  match l !! i with
  | Some x => Ok x
  | None => Raise IndexError
  end.

(** Decimal digits of a natural number, without padding. *)
Definition digits (n : N) : string := NilEmpty.string_of_uint (N.to_uint n).

Fixpoint zeros (k : nat) : string :=
  match k with
  | O => EmptyString
  | S k' => String "0" (zeros k')
  end.

Definition zfill (width : nat) (s : string) : string :=
  zeros (width - String.length s) +:+ s.

(** [f"{z:06d}"]: sign-aware zero padding to six characters. *)
Definition format_06d (z : Z) : string :=
  if z <? 0 then String "-" (zfill 5 (digits (Z.to_N (- z))))
  else zfill 6 (digits (Z.to_N z)).

(** [int(s)] for an optional sign followed by ASCII decimal digits, the
    only form that [f"{ep:06d}"] writes. Python also accepts surrounding
    white space and digits outside ASCII; here, like any other text, they
    raise [ValueError]. *)
Definition unsigned (s : string) : result Z :=
  match s with
  | EmptyString => Raise ValueError
  | _ => match NilEmpty.uint_of_string s with
         | Some d => Ok (Z.of_N (N.of_uint d))
         | None => Raise ValueError
         end
  end.

Definition int (s : string) : result Z :=
  match s with
  | String "-" s' => n ← unsigned s' ;;; Ok (- n)
  | String "+" s' => unsigned s'
  | _ => unsigned s
  end.

(** [fnmatch] for patterns whose only wildcard is [*]. *)
Fixpoint fnmatch (pat s : string) : bool :=
  match pat with
  | EmptyString => match s with EmptyString => true | _ => false end
  | String "*" pat' =>
      (fix star (s : string) : bool :=
         fnmatch pat' s ||
         match s with
         | EmptyString => false
         | String _ s' => star s'
         end) s
  | String c pat' =>
      match s with
      | String d s' => Ascii.eqb c d && fnmatch pat' s'
      | EmptyString => false
      end
  end.

End Py.

(** ** JSON values and the files of the dataset *)

(** A decoded JSON value. A Python [dict] keeps the insertion order of its
    keys, so an object is an association list; a float is kept as its text,
    arithmetic on it is outside this development. *)
#[warnings="-register-all"] Inductive json : Type :=
  | JNull
  | JBool (b : bool)
  | JInt (z : Z)
  | JFloat (repr : string)
  | JStr (s : string)
  | JArr (items : list json)
  | JObj (fields : list (string * json)).

Fixpoint dict_get (k : string) (d : list (string * json)) : option json :=
  match d with
  | [] => None
  | (k', v) :: d' => if String.eqb k k' then Some v else dict_get k d'
  end.

(** [d[k] = v]: an existing key keeps its position, a new key goes last. *)
Fixpoint dict_set (k : string) (v : json) (d : list (string * json)) : list (string * json) :=
  match d with
  | [] => [(k, v)]
  | (k', v') :: d' =>
      if String.eqb k k' then (k', v) :: d' else (k', v') :: dict_set k v d'
  end.

(** [obj[k]] for a string key [k]. *)
Definition getitem (obj : json) (k : string) : result json :=
  match obj with
  | JObj d => match dict_get k d with
              | Some v => Ok v
              | None => Raise KeyError
              end
  | _ => Raise TypeError
  end.

(** [obj[k] = v] for a string key [k]. *)
Definition setitem (obj : json) (k : string) (v : json) : result json :=
  match obj with
  | JObj d => Ok (JObj (dict_set k v d))
  | _ => Raise TypeError
  end.

(** The integer that a value stands for in a comparison or a subtraction
    with an [int]; [True] and [False] are the integers 1 and 0. On a float
    the source carries on in floating point; the embedding stops there with
    [UnsupportedFloat]. *)
Definition as_int (v : json) : result Z :=
  match v with
  | JInt z => Ok z
  | JBool b => Ok (if b then 1 else 0)
  | JFloat _ => Raise UnsupportedFloat
  | _ => Raise TypeError
  end.

(** One line of a [.jsonl] file, or a whole [.json] document, as
    [json.loads] sees it. Serialising with [json.dumps] and reading back is
    taken to give the same value. [Malformed] stands for every text that
    cannot be read, and reading it raises [JSONDecodeError] here; the source
    raises [UnicodeDecodeError] on bytes that are no UTF-8 and a plain
    [ValueError] on an integer of more than 4300 digits. *)
Inductive text : Type :=
  | Encoded (v : json)
  | Malformed.

Definition loads (t : text) : result json :=
  match t with
  | Encoded v => Ok v
  | Malformed => Raise JSONDecodeError
  end.

Definition dumps (v : json) : text := Encoded v.

Definition payload : Type := string.

(** The part of the dataset root that [remove_and_reindex] reads or writes.
    A metadata file that does not exist is [None]. *)
Record dataset : Type := Dataset {
  data_dir : gmap string payload;     (* data/chunk-000 *)
  laptop_dir : gmap string payload;   (* videos/chunk-000/observation.images.laptop *)
  phone_dir : gmap string payload;    (* videos/chunk-000/observation.images.phone *)
  episodes_jsonl : option (list text);        (* meta/episodes.jsonl *)
  episodes_stats_jsonl : option (list text);  (* meta/episodes_stats.jsonl *)
  info_json : option text                     (* meta/info.json *)
}.

(** ** File operations *)

(** [if p.exists(): p.unlink()] *)
Definition unlink_if_exists (name : string) (d : gmap string payload) : gmap string payload :=
  match d !! name with
  | Some _ => delete name d
  | None => d
  end.

(** [src.rename(dst)]: the POSIX behaviour, where an existing destination
    file is replaced silently. *)
Definition rename (src dst : string) (d : gmap string payload) : result (gmap string payload) :=
  match d !! src with
  | Some c => Ok (<[dst := c]> (delete src d))
  | None => Raise FileNotFoundError
  end.

(** [if src.exists(): src.rename(dst)] *)
Definition rename_if_exists (src dst : string) (d : gmap string payload) : gmap string payload :=
  match d !! src with
  | Some c => <[dst := c]> (delete src d)
  | None => d
  end.

(** [d.glob(pat)], in the order in which the directory happens to be listed. *)
Definition glob (pat : string) (d : gmap string payload) : list string :=
  filter (λ name, Py.fnmatch pat name = true) (elements (dom d)).

Definition parquet_name (ep : Z) : string :=
  "episode_" +:+ Py.format_06d ep +:+ ".parquet".

Definition mp4_name (ep : Z) : string :=
  "episode_" +:+ Py.format_06d ep +:+ ".mp4".

(** ** [remove_and_reindex] *)

(** Lines 30-39: the body of the removal loop. *)
Definition remove_files (ds : dataset) (ep : Z) : dataset :=
  {| data_dir := unlink_if_exists (parquet_name ep) (data_dir ds);
     laptop_dir := unlink_if_exists (mp4_name ep) (laptop_dir ds);
     phone_dir := unlink_if_exists (mp4_name ep) (phone_dir ds);
     episodes_jsonl := episodes_jsonl ds;
     episodes_stats_jsonl := episodes_stats_jsonl ds;
     info_json := info_json ds |}.

(** Line 42: [int(f.name.split("_")[1].split(".")[0])] *)
Definition parse_index (name : string) : result Z :=
  a ← Py.index (Py.split "_" name) 1 ;;;
  b ← Py.index (Py.split "." a) 0 ;;;
  Py.int b.

(** Lines 42-43 *)
Definition all_indices (d : gmap string payload) : result (list Z) :=
  l ← traverse parse_index (glob "episode_*.parquet" d) ;;;
  Ok (Py.sorted l).

(** Lines 48 and 75: [sum(1 for r in episodes_to_remove if r < idx)] *)
Definition decrement (episodes_to_remove : list Z) (idx : Z) : Z :=
  foldr Z.add 0 ((λ _, 1) <$> filter (λ r, r < idx) episodes_to_remove).

(** Lines 47-63: the body of the renaming loop; its state is the dataset and
    [index_map]. *)
Definition reindex_step (episodes_to_remove : list Z)
    (st : dataset * gmap Z Z) (idx : Z) : result (dataset * gmap Z Z) :=
  let '(ds, index_map) := st in
  let new_idx := idx - decrement episodes_to_remove idx in
  ds' ← (if decide (new_idx ≠ idx) then
           data ← rename (parquet_name idx) (parquet_name new_idx) (data_dir ds) ;;;
           Ok {| data_dir := data;
                 laptop_dir := rename_if_exists (mp4_name idx) (mp4_name new_idx) (laptop_dir ds);
                 phone_dir := rename_if_exists (mp4_name idx) (mp4_name new_idx) (phone_dir ds);
                 episodes_jsonl := episodes_jsonl ds;
                 episodes_stats_jsonl := episodes_stats_jsonl ds;
                 info_json := info_json ds |}
         else Ok ds) ;;;
  Ok (ds', <[idx := new_idx]> index_map).

(** Lines 69-77: the body of the loop over the lines of a metadata file; its
    state is [lines]. *)
Definition rewrite_line (removed_set : gset Z) (episodes_to_remove : list Z)
    (lines : list json) (line : text) : result (list json) :=
  entry ← loads line ;;;
  v ← getitem entry "episode_index" ;;;
  ep_idx ← as_int v ;;;
  if decide (ep_idx ∈ removed_set) then Ok lines
  else
    entry' ← setitem entry "episode_index"
                    (JInt (ep_idx - decrement episodes_to_remove ep_idx)) ;;;
    Ok (lines ++ [entry']).

(** Lines 67-80: one metadata file read, filtered and written back. *)
Definition rewrite_stream (removed_set : gset Z) (episodes_to_remove : list Z)
    (file : option (list text)) : result (option (list text)) :=
  match file with
  | None => Raise FileNotFoundError
  | Some content =>
      lines ← for_each (rewrite_line removed_set episodes_to_remove) content [] ;;;
      Ok (Some (dumps <$> lines))
  end.

(** Lines 83-88 *)
Definition update_info (episodes_to_remove : list Z) (file : option text) : result (option text) :=
  match file with
  | None => Raise FileNotFoundError
  | Some doc =>
      info ← loads doc ;;;
      v ← getitem info "total_episodes" ;;;
      total ← as_int v ;;;
      info' ← setitem info "total_episodes"
                     (JInt (total - Z.of_nat (length episodes_to_remove))) ;;;
      Ok (Some (dumps info'))
  end.

Definition remove_and_reindex (ds : dataset) (episodes_to_remove : list Z) : result dataset :=
  let episodes_to_remove := Py.sorted_set episodes_to_remove in
  (* 1. Remove parquet and video files for each episode *)
  let ds := foldl remove_files ds episodes_to_remove in
  (* 2. Rename all later episodes down *)
  indices ← all_indices (data_dir ds) ;;;
  let removed_set : gset Z := list_to_set episodes_to_remove in
  st ← for_each (reindex_step episodes_to_remove) indices (ds, ∅) ;;;
  let ds := st.1 in
  (* 3. Update metadata files *)
  episodes ← rewrite_stream removed_set episodes_to_remove (episodes_jsonl ds) ;;;
  stats ← rewrite_stream removed_set episodes_to_remove (episodes_stats_jsonl ds) ;;;
  info ← update_info episodes_to_remove (info_json ds) ;;;
  Ok {| data_dir := data_dir ds;
        laptop_dir := laptop_dir ds;
        phone_dir := phone_dir ds;
        episodes_jsonl := episodes;
        episodes_stats_jsonl := stats;
        info_json := info |}.

(** ** Definitions used in the statements *)

(** An ASCII decimal digit. *)
Definition is_digit (c : ascii) : bool :=
  match NilEmpty.uint_of_string (String c EmptyString) with
  | Some _ => true
  | None => false
  end.

Fixpoint all_digits (s : string) : bool :=
  match s with
  | EmptyString => true
  | String c s' => is_digit c && all_digits s'
  end.

(** The characters of a formatted index: digits and a sign. *)
Definition is_numeric (c : ascii) : bool := is_digit c || Ascii.eqb c "-".

Fixpoint all_numeric (s : string) : bool :=
  match s with
  | EmptyString => true
  | String c s' => is_numeric c && all_numeric s'
  end.

(** The new index: line 49. *)
Definition new_index (eps : list Z) (idx : Z) : Z := idx - decrement eps idx.

(** What lines 30-39 do to one directory, whose file names are given by
    [name]. *)
Definition unlink_pass (name : Z → string) (eps : list Z)
    (d : gmap string payload) : gmap string payload :=
  foldl (λ d ep, unlink_if_exists (name ep) d) d eps.

(** What lines 47-62 do to one directory when no rename fails. *)
Definition rename_pass (name : Z → string) (eps l : list Z)
    (d : gmap string payload) : gmap string payload :=
  foldl (λ d idx, if decide (new_index eps idx ≠ idx)
                  then rename_if_exists (name idx) (name (new_index eps idx)) d
                  else d) d l.

(** The files of a data directory are those of the index set [X]. *)
Definition tabular (d : gmap string payload) (X : gset Z) : Prop :=
  ∀ k, is_Some (d !! k) ↔ ∃ i, i ∈ X ∧ k = parquet_name i.

(** Every video file belongs to an episode of [X]. *)
Definition videos_of (d : gmap string payload) (X : gset Z) : Prop :=
  ∀ k, is_Some (d !! k) → ∃ i, i ∈ X ∧ k = mp4_name i.

(** The three directories after the run, given the listing [l] of line 43. *)
Definition files_after (eps l : list Z) (ds : dataset) (ds' : dataset) : Prop :=
  data_dir ds' = rename_pass parquet_name eps l (unlink_pass parquet_name eps (data_dir ds))
  ∧ laptop_dir ds' = rename_pass mp4_name eps l (unlink_pass mp4_name eps (laptop_dir ds))
  ∧ phone_dir ds' = rename_pass mp4_name eps l (unlink_pass mp4_name eps (phone_dir ds)).

Definition meta_after (eps : list Z) (ds : dataset) (ds' : dataset) : Prop :=
  rewrite_stream (list_to_set eps) eps (episodes_jsonl ds) = Ok (episodes_jsonl ds')
  ∧ rewrite_stream (list_to_set eps) eps (episodes_stats_jsonl ds)
    = Ok (episodes_stats_jsonl ds')
  ∧ update_info eps (info_json ds) = Ok (info_json ds').

(** The index that lines 70-72 read from a line. *)
Definition entry_index (line : text) : result Z :=
  entry ← loads line ;;;
  v ← getitem entry "episode_index" ;;;
  as_int v.

(** The counter that lines 84-86 read from [info.json]. *)
Definition total_episodes (file : option text) : result Z :=
  match file with
  | None => Raise FileNotFoundError
  | Some doc =>
      info ← loads doc ;;;
      v ← getitem info "total_episodes" ;;;
      as_int v
  end.

(** A line is dropped when its index is in the removal set. *)
Definition dropped (removed_set : gset Z) (line : text) : Prop :=
  match entry_index line with
  | Ok z => z ∈ removed_set
  | Raise _ => False
  end.

#[export] Instance dropped_dec (removed_set : gset Z) (line : text) :
  Decision (dropped removed_set line) :=
  match entry_index line as r
    return Decision (match r with Ok z => z ∈ removed_set | Raise _ => False end)
  with
  | Ok z => decide (z ∈ removed_set)
  | Raise _ => right (λ H, H)
  end.

(** What a kept line becomes. *)
Definition renumbered (eps : list Z) (line : text) (entry' : json) : Prop :=
  ∃ d v z, line = Encoded (JObj d)
    ∧ dict_get "episode_index" d = Some v ∧ as_int v = Ok z
    ∧ entry' = JObj (dict_set "episode_index" (JInt (new_index eps z)) d).


(** ** The terms of the specification *)

(** The count of removed indices strictly less than [i]. *)
Definition removed_below (R : gset Z) (i : Z) : Z :=
  Z.of_nat (size (filter (λ r, r < i) R)).

(** The number of removed indices that had a tabular file, for the files of
    the indices from [0] up to [M - 1]. *)
Definition removed_present (R : gset Z) (M : Z) : Z :=
  Z.of_nat (size (filter (λ r, 0 ≤ r < M) R)).

(** The rewrite of one metadata stream, in the terms of the specification:
    a kept record keeps its fields and their order, but for [episode_index],
    which loses the count of removed indices below it. *)
Definition record_rewritten (R : gset Z) (line line' : text) : Prop :=
  ∃ d d' z, line = Encoded (JObj d) ∧ line' = Encoded (JObj d')
    ∧ entry_index line = Ok z
    ∧ dict_get "episode_index" d' = Some (JInt (z - removed_below R z))
    ∧ (∀ k, k ≠ "episode_index" → dict_get k d' = dict_get k d)
    ∧ d'.*1 = d.*1.

(** The records that are not dropped appear rewritten, in their order. *)
Definition stream_rewritten (R : gset Z) (file file' : option (list text)) : Prop :=
  ∃ content content', file = Some content ∧ file' = Some content'
    ∧ Forall2 (record_rewritten R) (filter (λ line, ¬ dropped R line) content) content'.

(** ** Sample datasets *)

(** A small dataset with the episodes of the given indices, used to run the
    embedding on concrete inputs. *)
Definition episode_record (i : Z) : text :=
  Encoded (JObj [("episode_index", JInt i);
                 ("tasks", JArr [JStr "pick"]);
                 ("length", JInt (100 + i))]).

Definition stats_record (i : Z) : text :=
  Encoded (JObj [("stats", JObj [("max", JInt (7 * i))]);
                 ("episode_index", JInt i)]).

Definition sample (indices : list Z) : dataset :=
  {| data_dir := list_to_map ((λ i, (parquet_name i, "table " +:+ Py.format_06d i)) <$> indices);
     laptop_dir := list_to_map ((λ i, (mp4_name i, "laptop " +:+ Py.format_06d i)) <$> indices);
     phone_dir := list_to_map ((λ i, (mp4_name i, "phone " +:+ Py.format_06d i)) <$> indices);
     episodes_jsonl := Some (episode_record <$> indices);
     episodes_stats_jsonl := Some (stats_record <$> indices);
     info_json := Some (Encoded (JObj [("codebase_version", JStr "v2.1");
                                       ("total_episodes", JInt (Z.of_nat (length indices)));
                                       ("fps", JInt 30)])) |}.

(** A dataset with the tabular files of episodes 0, 1 and 3 and, in the
    laptop directory, a video for index 2 as well. *)
Definition sample_orphan : dataset :=
  {| data_dir := data_dir (sample [0; 1; 3]);
     laptop_dir := laptop_dir (sample [0; 1; 2; 3]);
     phone_dir := phone_dir (sample [0; 1; 3]);
     episodes_jsonl := episodes_jsonl (sample [0; 1; 3]);
     episodes_stats_jsonl := episodes_stats_jsonl (sample [0; 1; 3]);
     info_json := info_json (sample [0; 1; 3]) |}.

(** The dataset after a run that completes. *)
Definition outcome (ds : dataset) (episodes_to_remove : list Z) : dataset :=
  match remove_and_reindex ds episodes_to_remove with
  | Ok ds' => ds'
  | Raise _ => ds
  end.

(** ** The run with the files it leaves behind *)

(** [remove_and_reindex] above forgets the dataset when an exception is
    raised. The definitions below follow the same lines and keep it: they
    give the dataset as it is on disk when the function returns or raises,
    and the exception if there is one. Only the exceptions of the embedding
    are covered; a failure in the middle of a write, of the operating system
    or of [json.dumps] on an integer grown beyond 4300 digits, which leaves
    the file truncated, is not. *)

(** A loop whose body changes nothing before it raises: the state reached,
    and the exception that stopped the loop. The body of the renaming loop is
    such a body, its first operation being the only one that may raise. *)
Fixpoint for_each_until {S A : Type} (body : S → A → result S) (l : list A) (s : S)
    : S * option exn :=
  match l with
  | [] => (s, None)
  | x :: l' =>
      match body s x with
      | Ok s' => for_each_until body l' s'
      | Raise e => (s, Some e)
      end
  end.

(** Lines 78-80 and 87-88: a metadata file written back. *)
Definition with_episodes (ds : dataset) (file : option (list text)) : dataset :=
  {| data_dir := data_dir ds;
     laptop_dir := laptop_dir ds;
     phone_dir := phone_dir ds;
     episodes_jsonl := file;
     episodes_stats_jsonl := episodes_stats_jsonl ds;
     info_json := info_json ds |}.

Definition with_stats (ds : dataset) (file : option (list text)) : dataset :=
  {| data_dir := data_dir ds;
     laptop_dir := laptop_dir ds;
     phone_dir := phone_dir ds;
     episodes_jsonl := episodes_jsonl ds;
     episodes_stats_jsonl := file;
     info_json := info_json ds |}.

Definition with_info (ds : dataset) (file : option text) : dataset :=
  {| data_dir := data_dir ds;
     laptop_dir := laptop_dir ds;
     phone_dir := phone_dir ds;
     episodes_jsonl := episodes_jsonl ds;
     episodes_stats_jsonl := episodes_stats_jsonl ds;
     info_json := file |}.

(** Lines 20-89. A metadata file is read to its end before it is opened for
    writing, so an exception of the reading loop leaves the file as it was. *)
Definition remove_and_reindex_on_disk (ds : dataset) (episodes_to_remove : list Z)
    : dataset * option exn :=
  let episodes_to_remove := Py.sorted_set episodes_to_remove in
  let ds := foldl remove_files ds episodes_to_remove in
  match all_indices (data_dir ds) with
  | Raise e => (ds, Some e)
  | Ok indices =>
      let removed_set : gset Z := list_to_set episodes_to_remove in
      let '(st, raised) :=
        for_each_until (reindex_step episodes_to_remove) indices (ds, ∅) in
      let ds := st.1 in
      match raised with
      | Some e => (ds, Some e)
      | None =>
          match rewrite_stream removed_set episodes_to_remove (episodes_jsonl ds) with
          | Raise e => (ds, Some e)
          | Ok episodes =>
              let ds := with_episodes ds episodes in
              match rewrite_stream removed_set episodes_to_remove
                      (episodes_stats_jsonl ds) with
              | Raise e => (ds, Some e)
              | Ok stats =>
                  let ds := with_stats ds stats in
                  match update_info episodes_to_remove (info_json ds) with
                  | Raise e => (ds, Some e)
                  | Ok info => (with_info ds info, None)
                  end
              end
          end
      end
  end.

(** ** [backup_dir] and [main] *)

(** The disk: the dataset directories by their resolved path; no path of the
    map lies inside another one. *)

(** Lines 10-17. The backup path is the path of the source with [_backup]
    appended to its last component; [shutil.copytree] raises when the source
    is not there. *)
Definition backup_dir (src_dir : string) (disk : gmap string dataset)
    : result (gmap string dataset * string) :=
  let backup_path := src_dir +:+ "_backup" in
  match disk !! backup_path with
  | Some _ => Ok (disk, backup_path)
  | None =>
      match disk !! src_dir with
      | Some tree => Ok (<[backup_path := tree]> disk, backup_path)
      | None => Raise FileNotFoundError
      end
  end.

(** What [remove_and_reindex] finds under a root that does not exist: no
    file in any directory, and no metadata file to open. *)
Definition missing_root : dataset :=
  {| data_dir := ∅;
     laptop_dir := ∅;
     phone_dir := ∅;
     episodes_jsonl := None;
     episodes_stats_jsonl := None;
     info_json := None |}.

Section main.

(** Lines 92-103 call the Hugging Face client: [upload_to_hub] is a
    parameter, given the content of the folder, the repository id and the
    state of the hub. *)
Context {Hub : Type} (upload_to_hub : dataset → string → Hub → Hub * option exn).

(** Lines 106-118, after the arguments are parsed and the root resolved.
    [remove_and_reindex] runs on what is under the root, which is
    [missing_root] when the root does not exist; what it leaves is the new
    content of a root that exists, while under a root that does not exist
    no file can be created. *)
Definition main (root : string) (episodes : list Z) (new_repo_id : string) (backup : bool)
    (disk : gmap string dataset) (hub : Hub)
    : gmap string dataset * Hub * option exn :=
  match (if backup then backup_dir root disk else Ok (disk, root)) with
  | Raise e => (disk, hub, Some e)
  | Ok (disk, _) =>
      let '(ds', raised) :=
        remove_and_reindex_on_disk (default missing_root (disk !! root)) episodes in
      let disk := match disk !! root with
                  | Some _ => <[root := ds']> disk
                  | None => disk
                  end in
      match raised with
      | Some e => (disk, hub, Some e)
      | None =>
          let '(hub, raised) := upload_to_hub ds' new_repo_id hub in
          (disk, hub, raised)
      end
  end.

End main.

(** ** Definitions used in the further statements *)

(** A line that is an object with an [int] as its [episode_index]. *)
Definition integer_indexed (line : text) : Prop :=
  ∃ d z, line = Encoded (JObj d) ∧ dict_get "episode_index" d = Some (JInt z).

(** The indices of the records of a metadata stream, in order. *)
Definition stream_indices (file : option (list text)) : result (list Z) :=
  match file with
  | None => Raise FileNotFoundError
  | Some content => traverse entry_index content
  end.

(** A name that is the name of no episode file. *)
Definition foreign_name (name : Z → string) (k : string) : Prop :=
  ∀ i, k ≠ name i.

(** An ASCII letter. *)
Definition is_letter (c : ascii) : bool :=
  let n := N_of_ascii c in
  ((65 <=? n)%N && (n <=? 90)%N) || ((97 <=? n)%N && (n <=? 122)%N).

(** A text that [int] rejects whatever the white space, signs and digits
    that Python accepts: the empty text, or one with an ASCII letter in it. *)
Definition no_numeral (s : string) : Prop :=
  s = "" ∨ Exists (λ c, is_letter c = true) (list_ascii_of_string s).

(** An upload that records what it is given, to run [main] on. *)
Definition recording_upload (ds : dataset) (repo : string)
    (hub : list (string * dataset)) : list (string * dataset) * option exn :=
  ((repo, ds) :: hub, None).

(** * Properties *)

(** ** The result monad *)

Lemma bind_Ok {A B : Type} (r : result A) (k : A → result B) (b : B) :
  bind r k = Ok b ↔ ∃ a, r = Ok a ∧ k a = Ok b.
Proof.
  destruct r as [a|e]; simpl; split.
  - eauto.
  - by intros (a' & [= ->] & ?).
  - done.
  - by intros (? & ? & ?).
Qed.

Lemma traverse_fmap_Ok {A B : Type} (f : A → result B) (g : B → A) (l : list B) :
  (∀ y, y ∈ l → f (g y) = Ok y) → traverse f (g <$> l) = Ok l.
Proof.
  induction l as [|y l IH]; intros Hf; [done|].
  rewrite fmap_cons. cbn [traverse]. rewrite Hf by left.
  rewrite IH; [done|]. intros z Hz. apply Hf. by right.
Qed.

(** ** Strings: file names and the indices they encode *)

Lemma all_digits_app s1 s2 :
  all_digits (s1 +:+ s2) = all_digits s1 && all_digits s2.
Proof. induction s1 as [|c s1 IH]; simpl; [done|]. by rewrite IH, andb_assoc. Qed.

Lemma all_digits_zeros k : all_digits (Py.zeros k) = true.
Proof. induction k; simpl; auto. Qed.

Lemma all_digits_uint d : all_digits (NilEmpty.string_of_uint d) = true.
Proof. induction d; simpl; auto. Qed.

Lemma all_digits_zfill w n : all_digits (Py.zfill w (Py.digits n)) = true.
Proof.
  unfold Py.zfill, Py.digits.
  by rewrite all_digits_app, all_digits_zeros, all_digits_uint.
Qed.

Lemma digits_nonempty n : Py.digits n ≠ EmptyString.
Proof.
  unfold Py.digits. destruct n as [|p]; simpl; [done|].
  pose proof (DecimalPos.Unsigned.to_uint_nonnil p) as Hp.
  by destruct (Pos.to_uint p).
Qed.

Lemma zfill_nonempty w n : Py.zfill w (Py.digits n) ≠ EmptyString.
Proof.
  unfold Py.zfill. pose proof (digits_nonempty n).
  destruct (Py.zeros _); simpl; [done|discriminate].
Qed.

Lemma uint_of_zeros k s :
  NilEmpty.uint_of_string (Py.zeros k +:+ s) =
  Nat.iter k (λ o, uint_of_char "0" o) (NilEmpty.uint_of_string s).
Proof. induction k as [|k IH]; simpl; [done|]. by rewrite IH. Qed.

Lemma unsigned_zfill w n : Py.unsigned (Py.zfill w (Py.digits n)) = Ok (Z.of_N n).
Proof.
  pose proof (zfill_nonempty w n) as Hne.
  unfold Py.unsigned. destruct (Py.zfill w (Py.digits n)) eqn:E; [done|].
  rewrite <- E. clear E Hne. unfold Py.zfill, Py.digits.
  rewrite uint_of_zeros, NilEmpty.usu.
  generalize (w - String.length (NilEmpty.string_of_uint (N.to_uint n)))%nat.
  intros k.
  assert (∃ d, Nat.iter k (λ o, uint_of_char "0" o) (Some (N.to_uint n)) = Some d
               ∧ N.of_uint d = n) as (d & -> & ->); [|done].
  induction k as [|k (d & IH & Hd)]; simpl.
  - eexists; split; [done|]. apply Unsigned.of_to.
  - rewrite IH. simpl. eexists; split; [done|]. by rewrite <- Hd.
Qed.

Lemma int_digits s : all_digits s = true → Py.int s = Py.unsigned s.
Proof.
  destruct s as [|c s]; [done|]. simpl. intros [Hc _]%andb_true_iff.
  destruct c as [[] [] [] [] [] [] [] []]; try discriminate Hc; reflexivity.
Qed.

Lemma int_format_06d z : Py.int (Py.format_06d z) = Ok z.
Proof.
  unfold Py.format_06d. destruct (Z.ltb_spec z 0).
  - simpl. rewrite unsigned_zfill. simpl. f_equal. lia.
  - rewrite int_digits by apply all_digits_zfill.
    rewrite unsigned_zfill. f_equal. lia.
Qed.

Lemma all_digits_numeric s : all_digits s = true → all_numeric s = true.
Proof.
  induction s as [|c s IH]; simpl; [done|].
  intros [Hc Hs]%andb_true_iff. unfold is_numeric. by rewrite Hc, IH.
Qed.

Lemma all_numeric_format_06d z : all_numeric (Py.format_06d z) = true.
Proof.
  unfold Py.format_06d. destruct (z <? 0); simpl;
    apply all_digits_numeric, all_digits_zfill.
Qed.

Lemma split_numeric sep s rest :
  is_numeric sep = false → all_numeric s = true →
  Py.split sep (s +:+ String sep rest) = s :: Py.split sep rest.
Proof.
  intros Hsep. induction s as [|c s IH]; simpl.
  - by rewrite Ascii.eqb_refl.
  - intros [Hc Hs]%andb_true_iff.
    destruct (Ascii.eqb_spec c sep) as [->|_]; [congruence|].
    by rewrite IH.
Qed.

Lemma parse_index_name z ext :
  Py.split "_" ext = [ext] →
  parse_index ("episode_" +:+ Py.format_06d z +:+ String "." ext) = Ok z.
Proof.
  intros Hext. unfold parse_index.
  change (Py.split "_" ("episode_" +:+ Py.format_06d z +:+ String "." ext))
    with ("episode" :: Py.split "_" (Py.format_06d z +:+ String "." ext)).
  assert (Py.split "_" (Py.format_06d z +:+ String "." ext)
          = [Py.format_06d z +:+ String "." ext]) as ->.
  { pose proof (all_numeric_format_06d z) as Hn.
    induction (Py.format_06d z) as [|c s IH]; simpl.
    - by rewrite Hext.
    - simpl in Hn. apply andb_true_iff in Hn as [Hc Hs].
      destruct (Ascii.eqb_spec c "_") as [->|_]; [done|].
      by rewrite IH. }
  simpl. rewrite split_numeric by (done || apply all_numeric_format_06d).
  simpl. apply int_format_06d.
Qed.

Lemma parse_index_parquet z : parse_index (parquet_name z) = Ok z.
Proof. by apply (parse_index_name z "parquet"). Qed.

Lemma parse_index_mp4 z : parse_index (mp4_name z) = Ok z.
Proof. by apply (parse_index_name z "mp4"). Qed.

Lemma parquet_name_inj : Inj (=) (=) parquet_name.
Proof.
  intros x y Hxy. pose proof (parse_index_parquet x) as Hx.
  rewrite Hxy, parse_index_parquet in Hx. congruence.
Qed.

Lemma mp4_name_inj : Inj (=) (=) mp4_name.
Proof.
  intros x y Hxy. pose proof (parse_index_mp4 x) as Hx.
  rewrite Hxy, parse_index_mp4 in Hx. congruence.
Qed.

#[export] Existing Instance parquet_name_inj.
#[export] Existing Instance mp4_name_inj.

Lemma fnmatch_star pat mid s :
  Py.fnmatch pat s = true → Py.fnmatch (String "*" pat) (mid +:+ s) = true.
Proof.
  intros Hs. induction mid as [|c mid IH].
  - destruct s; simpl in *; rewrite Hs; done.
  - change (Py.fnmatch (String "*" pat) (String c mid +:+ s))
      with (Py.fnmatch pat (String c (mid +:+ s))
            || Py.fnmatch (String "*" pat) (mid +:+ s)).
    rewrite IH. apply orb_true_r.
Qed.

Lemma fnmatch_parquet_name z :
  Py.fnmatch "episode_*.parquet" (parquet_name z) = true.
Proof.
  change (Py.fnmatch "episode_*.parquet" (parquet_name z))
    with (Py.fnmatch "*.parquet" (Py.format_06d z +:+ ".parquet")).
  by apply fnmatch_star.
Qed.

(** ** The removal list and the decrement *)

Lemma sorted_set_Permutation (l : list Z) :
  Py.sorted_set l ≡ₚ elements (list_to_set l : gset Z).
Proof. apply merge_sort_Permutation. Qed.

Lemma elem_of_sorted_set (l : list Z) (x : Z) : x ∈ Py.sorted_set l ↔ x ∈ l.
Proof.
  rewrite sorted_set_Permutation, elem_of_elements. apply elem_of_list_to_set.
Qed.

Lemma NoDup_sorted_set (l : list Z) : NoDup (Py.sorted_set l).
Proof. rewrite sorted_set_Permutation. apply NoDup_elements. Qed.

Lemma length_sorted_set (l : list Z) :
  length (Py.sorted_set l) = size (list_to_set l : gset Z).
Proof. by rewrite sorted_set_Permutation. Qed.

Lemma list_to_set_sorted_set (l : list Z) :
  (list_to_set (Py.sorted_set l) : gset Z) = list_to_set l.
Proof. apply set_eq. intros x. by rewrite !elem_of_list_to_set, elem_of_sorted_set. Qed.

Lemma sorted_set_ext (l1 l2 : list Z) :
  (∀ x, x ∈ l1 ↔ x ∈ l2) → Py.sorted_set l1 = Py.sorted_set l2.
Proof.
  intros H. unfold Py.sorted_set.
  replace (list_to_set l2 : gset Z) with (list_to_set l1 : gset Z); [done|].
  apply set_eq. intros x. by rewrite !elem_of_list_to_set.
Qed.

Lemma StronglySorted_lt_le (l : list Z) :
  StronglySorted Z.lt l → StronglySorted Z.le l.
Proof.
  induction 1 as [|x l Hl IH Hx]; constructor; [done|].
  eapply Forall_impl; [done|]. intros; simpl in *; lia.
Qed.

Lemma sorted_sorted (l : list Z) : StronglySorted Z.lt l → Py.sorted l = l.
Proof.
  intros Hl. apply (StronglySorted_unique Z.le).
  - apply StronglySorted_merge_sort; apply _.
  - by apply StronglySorted_lt_le.
  - apply merge_sort_Permutation.
Qed.

Lemma sorted_Permutation (l1 l2 : list Z) : l1 ≡ₚ l2 → Py.sorted l1 = Py.sorted l2.
Proof.
  intros H. apply (StronglySorted_unique Z.le).
  - apply StronglySorted_merge_sort; apply _.
  - apply StronglySorted_merge_sort; apply _.
  - unfold Py.sorted. by rewrite !merge_sort_Permutation.
Qed.

Lemma sorted_NoDup_lt (l : list Z) : NoDup l → StronglySorted Z.lt (Py.sorted l).
Proof.
  intros Hl.
  assert (NoDup (Py.sorted l)) as Hnd
    by (unfold Py.sorted; by rewrite merge_sort_Permutation).
  assert (StronglySorted Z.le (Py.sorted l)) as Hs
    by (apply StronglySorted_merge_sort; apply _).
  induction Hs as [|x k Hk IH Hx]; [constructor|].
  apply NoDup_cons in Hnd as [Hxk Hnd]. constructor; [by apply IH|].
  apply Forall_forall. intros y Hy.
  rewrite Forall_forall in Hx. specialize (Hx y Hy).
  assert (x ≠ y) by (intros ->; done). lia.
Qed.

(** [decrement] counts the entries of the list that are below [idx]. *)
Lemma decrement_length (eps : list Z) (idx : Z) :
  decrement eps idx = Z.of_nat (length (filter (λ r, r < idx) eps)).
Proof.
  unfold decrement. induction (filter (λ r, r < idx) eps) as [|r l IH]; [done|].
  rewrite fmap_cons. cbn [foldr length]. rewrite IH. lia.
Qed.

Lemma decrement_nonneg (eps : list Z) (idx : Z) : 0 ≤ decrement eps idx.
Proof. rewrite decrement_length. lia. Qed.

Lemma decrement_nil (idx : Z) : decrement [] idx = 0.
Proof. done. Qed.

Lemma decrement_cons (r : Z) (eps : list Z) (idx : Z) :
  decrement (r :: eps) idx = (if decide (r < idx) then 1 else 0) + decrement eps idx.
Proof.
  rewrite !decrement_length, filter_cons. case_decide; cbn [length]; lia.
Qed.

Lemma decrement_mono (eps : list Z) (i j : Z) :
  i ≤ j → decrement eps i ≤ decrement eps j.
Proof.
  intros Hij. induction eps as [|r eps IH]; [done|].
  rewrite !decrement_cons. repeat case_decide; lia.
Qed.

Lemma decrement_none_below (eps : list Z) (i : Z) :
  (∀ r, r ∈ eps → i ≤ r) → decrement eps i = 0.
Proof.
  induction eps as [|r eps IH]; intros H; [done|].
  rewrite decrement_cons, IH.
  - assert (i ≤ r) by (apply H; left). case_decide; lia.
  - intros r' Hr'. apply H. by right.
Qed.

(** The entries counted between two indices. *)
Lemma decrement_diff (eps : list Z) (i j : Z) :
  i ≤ j →
  decrement eps j - decrement eps i
  = Z.of_nat (length (filter (λ r, i ≤ r < j) eps)).
Proof.
  intros Hij. induction eps as [|r eps IH]; [done|].
  rewrite !decrement_cons, filter_cons.
  repeat case_decide; cbn [length]; lia.
Qed.

(** At most [b - a] distinct integers lie in the interval from [a] to [b]. *)
Lemma NoDup_interval_length (l : list Z) (a b : Z) :
  a ≤ b → NoDup l → (∀ x, x ∈ l → a ≤ x < b) → Z.of_nat (length l) ≤ b - a.
Proof.
  intros Hab Hl Hin.
  assert (l ⊆+ seqZ a (b - a)) as Hsub.
  { apply NoDup_submseteq; [done|]. intros x Hx. apply elem_of_seqZ.
    specialize (Hin x Hx). lia. }
  apply submseteq_length in Hsub. rewrite length_seqZ in Hsub. lia.
Qed.

Lemma new_index_le (eps : list Z) (i : Z) : new_index eps i ≤ i.
Proof. unfold new_index. pose proof (decrement_nonneg eps i). lia. Qed.


Lemma new_index_strict_mono (eps : list Z) (i j : Z) :
  NoDup eps → i ∉ eps → i < j → new_index eps i < new_index eps j.
Proof.
  intros Hnd Hi Hij. unfold new_index.
  pose proof (decrement_diff eps i j ltac:(lia)) as Hd.
  assert (Z.of_nat (length (filter (λ r, i ≤ r < j) eps)) ≤ j - (i + 1)); [|lia].
  apply NoDup_interval_length; [lia|by apply NoDup_filter|].
  intros x [Hx Hin]%list_elem_of_filter.
  assert (x ≠ i) by (intros ->; done). lia.
Qed.

Lemma new_index_mono (eps : list Z) (i j : Z) :
  NoDup eps → i ≤ j → new_index eps i ≤ new_index eps j.
Proof.
  intros Hnd Hij. unfold new_index.
  pose proof (decrement_diff eps i j Hij) as Hd.
  assert (Z.of_nat (length (filter (λ r, i ≤ r < j) eps)) ≤ j - i); [|lia].
  apply NoDup_interval_length; [lia|by apply NoDup_filter|].
  by intros x [Hx Hin]%list_elem_of_filter.
Qed.

Lemma new_index_inj (eps : list Z) (i j : Z) :
  NoDup eps → i ∉ eps → j ∉ eps → new_index eps i = new_index eps j → i = j.
Proof.
  intros Hnd Hi Hj Heq.
  destruct (Z.lt_trichotomy i j) as [Hlt|[->|Hlt]]; [|done|].
  - pose proof (new_index_strict_mono eps i j Hnd Hi Hlt). lia.
  - pose proof (new_index_strict_mono eps j i Hnd Hj Hlt). lia.
Qed.


(** ** One directory under the removal loop and the renaming loop *)

Section passes.

Context (name : Z → string) `{!Inj (=) (=) name}.

Lemma unlink_if_exists_delete k (d : gmap string payload) :
  unlink_if_exists k d = delete k d.
Proof.
  unfold unlink_if_exists. destruct (d !! k) eqn:E; [done|].
  by rewrite delete_id.
Qed.

Lemma lookup_unlink_pass eps (d : gmap string payload) k :
  unlink_pass name eps d !! k = if decide (k ∈ name <$> eps) then None else d !! k.
Proof.
  unfold unlink_pass. revert d. induction eps as [|r eps IH]; intros d.
  - cbn [foldl]. by rewrite fmap_nil, decide_False by apply not_elem_of_nil.
  - cbn [foldl]. rewrite IH, unlink_if_exists_delete, fmap_cons.
    destruct (decide (k = name r)) as [->|Hne].
    + rewrite lookup_delete_eq.
      rewrite (decide_True (P := name r ∈ name r :: _)) by apply list_elem_of_here.
      by case_decide.
    + rewrite lookup_delete_ne by done.
      destruct (decide (k ∈ name <$> eps)) as [Hin|Hnin].
      * by rewrite decide_True by by apply list_elem_of_further.
      * by rewrite decide_False by (intros [?|?]%elem_of_cons; done).
Qed.

Lemma lookup_unlink_pass_name eps (d : gmap string payload) i :
  unlink_pass name eps d !! name i = if decide (i ∈ eps) then None else d !! name i.
Proof.
  rewrite lookup_unlink_pass. repeat case_decide; try done.
  - apply list_elem_of_fmap in H as (j & ->%(inj name) & ?). done.
  - exfalso. apply H. by apply list_elem_of_fmap_2.
Qed.

Section renaming.

Context (eps : list Z) (Heps : NoDup eps).

Lemma rename_pass_cons a l (d : gmap string payload) :
  rename_pass name eps (a :: l) d
  = rename_pass name eps l
      (if decide (new_index eps a ≠ a)
       then rename_if_exists (name a) (name (new_index eps a)) d else d).
Proof. done. Qed.

Lemma rename_pass_app l1 l2 (d : gmap string payload) :
  rename_pass name eps (l1 ++ l2) d = rename_pass name eps l2 (rename_pass name eps l1 d).
Proof. apply foldl_app. Qed.

(** One step leaves alone every name that is neither its source nor its
    destination. *)
Lemma lookup_rename_step_ne a (d : gmap string payload) k :
  k ≠ name a → (is_Some (d !! name a) → k ≠ name (new_index eps a)) →
  (if decide (new_index eps a ≠ a)
   then rename_if_exists (name a) (name (new_index eps a)) d else d) !! k
  = d !! k.
Proof.
  intros Hsrc Hdst. case_decide; [|done]. unfold rename_if_exists.
  destruct (d !! name a) eqn:E; [|done].
  rewrite lookup_insert_ne by (apply not_eq_sym, Hdst; eauto).
  by rewrite lookup_delete_ne.
Qed.

Lemma lookup_rename_step_later a (d : gmap string payload) j :
  a < j →
  (if decide (new_index eps a ≠ a)
   then rename_if_exists (name a) (name (new_index eps a)) d else d) !! name j
  = d !! name j.
Proof.
  intros Haj. pose proof (new_index_le eps a).
  apply lookup_rename_step_ne; [|intros _]; intros ?%(inj name); lia.
Qed.

(** A name that no present file is renamed to ends up empty if it is the
    name of a listed index, and keeps its content otherwise. *)
Lemma lookup_rename_pass_other l (d : gmap string payload) k :
  StronglySorted Z.lt l →
  (∀ i, i ∈ l → is_Some (d !! name i) → k ≠ name (new_index eps i)) →
  rename_pass name eps l d !! k = if decide (k ∈ name <$> l) then None else d !! k.
Proof.
  intros Hl. revert d. induction Hl as [|a l Hl IH Ha]; intros d Hk.
  - cbn [rename_pass foldl]. by rewrite fmap_nil, decide_False by apply not_elem_of_nil.
  - rewrite Forall_forall in Ha.
    rewrite rename_pass_cons, IH; clear IH.
    2:{ intros i Hi. rewrite lookup_rename_step_later by auto.
        by apply Hk, list_elem_of_further. }
    rewrite fmap_cons. destruct (decide (k ∈ name <$> l)) as [Hin|Hnin].
    { rewrite decide_True; [done|by apply list_elem_of_further]. }
    destruct (decide (k = name a)) as [->|Hne].
    + rewrite (decide_True (P := name a ∈ name a :: _)) by apply list_elem_of_here.
      case_decide as Hmv.
      * unfold rename_if_exists. destruct (d !! name a) eqn:E; [|done].
        rewrite lookup_insert_ne by (intros ?%(inj name); done).
        apply lookup_delete_eq.
      * destruct (d !! name a) eqn:E; [|done].
        exfalso. apply (Hk a); [apply list_elem_of_here|eauto|].
        by rewrite Hmv.
    + rewrite (decide_False (P := k ∈ name a :: _))
        by (intros [?|?]%elem_of_cons; done).
      apply lookup_rename_step_ne; [done|]. apply Hk, list_elem_of_here.
Qed.

(** A present file of a listed index ends up under its new index. *)
Lemma lookup_rename_pass_new l (d : gmap string payload) i c :
  StronglySorted Z.lt l → Forall (λ j, j ∉ eps) l →
  i ∈ l → d !! name i = Some c →
  rename_pass name eps l d !! name (new_index eps i) = Some c.
Proof.
  intros Hl. revert d. induction Hl as [|a l Hl IH Ha]; intros d Hne Hi Hc.
  { by apply elem_of_nil in Hi. }
  rewrite Forall_forall in Ha. apply Forall_cons in Hne as [Hae Hne].
  rewrite rename_pass_cons. apply elem_of_cons in Hi as [->|Hi].
  - rewrite lookup_rename_pass_other; [|done|].
    2:{ intros j Hj _ ?%(inj name).
        pose proof (new_index_strict_mono eps a j Heps Hae (Ha j Hj)). lia. }
    rewrite decide_False.
    2:{ intros (j & ?%(inj name) & Hj)%list_elem_of_fmap.
        pose proof (new_index_le eps a). specialize (Ha j Hj). lia. }
    case_decide as Hmv.
    + unfold rename_if_exists. rewrite Hc. apply lookup_insert_eq.
    + by rewrite Hmv.
  - apply IH; [done..|]. by rewrite lookup_rename_step_later by auto.
Qed.

(** With every listed index present and nothing else in the directory,
    the directory ends up holding exactly the new indices. *)
Lemma lookup_rename_pass_full l (d : gmap string payload) k :
  StronglySorted Z.lt l → Forall (λ j, j ∉ eps) l →
  (∀ k', is_Some (d !! k') ↔ k' ∈ name <$> l) →
  is_Some (rename_pass name eps l d !! k) ↔ k ∈ name <$> (new_index eps <$> l).
Proof.
  intros Hl Hne Hd. split.
  - intros Hk.
    destruct (decide (k ∈ name <$> (new_index eps <$> l))) as [|Hnin]; [done|].
    exfalso. rewrite lookup_rename_pass_other in Hk; [|done|].
    + case_decide as Hin; [by destruct Hk|]. by apply Hd in Hk.
    + intros i Hi _ ->. apply Hnin. by do 2 apply list_elem_of_fmap_2.
  - intros (? & -> & (i & -> & Hi)%list_elem_of_fmap)%list_elem_of_fmap.
    destruct (proj2 (Hd (name i))) as [c Hc]; [by apply list_elem_of_fmap_2|].
    rewrite (lookup_rename_pass_new l d i c); eauto.
Qed.

(** At the moment an index is renamed its destination is free, when the
    directory holds files of listed indices only. *)
Lemma rename_pass_destination_free l1 idx l2 (d : gmap string payload) :
  StronglySorted Z.lt (l1 ++ idx :: l2) → Forall (λ j, j ∉ eps) (l1 ++ idx :: l2) →
  (∀ k, is_Some (d !! k) → k ∈ name <$> (l1 ++ idx :: l2)) →
  new_index eps idx ≠ idx →
  rename_pass name eps l1 d !! name (new_index eps idx) = None.
Proof.
  intros Hl Hne Hd Hmv.
  apply StronglySorted_app in Hl as (Hlt & Hl1 & Hl2).
  apply Forall_app in Hne as [Hne1 Hne2]. rewrite Forall_forall in Hne1.
  rewrite lookup_rename_pass_other; [|done|].
  2:{ intros i Hi _ ?%(inj name).
      pose proof (new_index_strict_mono eps i idx Heps (Hne1 i Hi)
                    (Hlt i idx Hi (list_elem_of_here _ _))). lia. }
  case_decide as Hin; [done|].
  destruct (d !! name (new_index eps idx)) eqn:E; [|done].
  exfalso. pose proof (Hd (name (new_index eps idx)) ltac:(eauto)) as Hlisted.
  apply list_elem_of_fmap in Hlisted as (j & Hnew%(inj name) & Hj).
  apply elem_of_app in Hj as [Hj|Hj].
  - apply Hin. rewrite Hnew. by apply list_elem_of_fmap_2.
  - pose proof (new_index_le eps idx).
    apply elem_of_cons in Hj as [->|Hj]; [lia|].
    apply StronglySorted_inv in Hl2 as [_ Hl2].
    rewrite Forall_forall in Hl2. specialize (Hl2 j Hj). lia.
Qed.

End renaming.

End passes.

(** ** The loops of [remove_and_reindex] *)

Lemma traverse_Permutation {A B : Type} (f : A → result B) (l1 l2 : list A) (r1 : list B) :
  l1 ≡ₚ l2 → traverse f l1 = Ok r1 → ∃ r2, traverse f l2 = Ok r2 ∧ r1 ≡ₚ r2.
Proof.
  intros Hp. revert r1.
  induction Hp as [|x l1 l2 Hp IH|x y l|l1 l2 l3 Hp1 IH1 Hp2 IH2]; intros r1; cbn [traverse].
  - intros [= <-]. by exists [].
  - intros (y & Hy & (ys & Hys & [= <-])%bind_Ok)%bind_Ok.
    destruct (IH _ Hys) as (r2 & -> & Hr2). rewrite Hy. simpl.
    exists (y :: r2). by rewrite Hr2.
  - intros (b & Hb & (? & (a & Ha & (r & Hr & [= <-])%bind_Ok)%bind_Ok & [= <-])%bind_Ok)%bind_Ok.
    rewrite Ha, Hb. simpl. rewrite Hr. simpl. eexists. split; [done|]. apply perm_swap.
  - intros Hr1. destruct (IH1 _ Hr1) as (r2 & Hr2 & ?).
    destruct (IH2 _ Hr2) as (r3 & Hr3 & ?). exists r3. split; [done|]. by etrans.
Qed.

Lemma filter_all {A : Type} (P : A → Prop) `{!∀ x, Decision (P x)} (l : list A) :
  Forall P l → filter P l = l.
Proof.
  induction 1 as [|x l Hx Hl IH]; [done|].
  by rewrite filter_cons_True, IH.
Qed.

Lemma tabular_lookup d (X : gset Z) i : tabular d X → is_Some (d !! parquet_name i) ↔ i ∈ X.
Proof.
  intros Hd. rewrite (Hd (parquet_name i)). split; [|by eauto].
  by intros (j & Hj & ->%(inj parquet_name)).
Qed.

Lemma tabular_unique d (X Y : gset Z) : tabular d X → tabular d Y → X = Y.
Proof.
  intros HX HY. apply set_eq. intros i.
  by rewrite <- (tabular_lookup d X i HX), <- (tabular_lookup d Y i HY).
Qed.

Lemma glob_tabular d (X : gset Z) :
  tabular d X → glob "episode_*.parquet" d ≡ₚ parquet_name <$> elements X.
Proof.
  intros Hd. unfold glob.
  assert (elements (dom d) ≡ₚ parquet_name <$> elements X) as ->.
  { apply NoDup_Permutation.
    - apply NoDup_elements.
    - apply (NoDup_fmap_2 _), NoDup_elements.
    - intros k. rewrite elem_of_elements, elem_of_dom, (Hd k), list_elem_of_fmap.
      split; intros (i & ? & ?); exists i; by rewrite ?elem_of_elements in *. }
  rewrite filter_all; [done|]. apply Forall_forall.
  intros k (i & -> & _)%list_elem_of_fmap. apply fnmatch_parquet_name.
Qed.

Lemma all_indices_tabular d (X : gset Z) :
  tabular d X → all_indices d = Ok (Py.sorted (elements X)).
Proof.
  intros Hd. unfold all_indices.
  destruct (traverse_Permutation parse_index (parquet_name <$> elements X)
              (glob "episode_*.parquet" d) (elements X)) as (r & -> & Hr).
  - symmetry. by apply glob_tabular.
  - apply traverse_fmap_Ok. intros; apply parse_index_parquet.
  - simpl. f_equal. symmetry. by apply sorted_Permutation.
Qed.

Lemma all_indices_sorted (X : gset Z) : StronglySorted Z.lt (Py.sorted (elements X)).
Proof. apply sorted_NoDup_lt, NoDup_elements. Qed.

Lemma elem_of_sorted_elements (X : gset Z) i : i ∈ Py.sorted (elements X) ↔ i ∈ X.
Proof. unfold Py.sorted. by rewrite merge_sort_Permutation, elem_of_elements. Qed.

(** Lines 30-39 *)
Lemma remove_files_loop eps ds :
  foldl remove_files ds eps =
  {| data_dir := unlink_pass parquet_name eps (data_dir ds);
     laptop_dir := unlink_pass mp4_name eps (laptop_dir ds);
     phone_dir := unlink_pass mp4_name eps (phone_dir ds);
     episodes_jsonl := episodes_jsonl ds;
     episodes_stats_jsonl := episodes_stats_jsonl ds;
     info_json := info_json ds |}.
Proof.
  revert ds. induction eps as [|r eps IH]; intros ds; [by destruct ds|].
  cbn [foldl]. by rewrite IH.
Qed.

Lemma tabular_unlink_pass eps d (X : gset Z) :
  tabular d X → tabular (unlink_pass parquet_name eps d) (X ∖ list_to_set eps).
Proof.
  intros Hd k. rewrite lookup_unlink_pass. case_decide as Hk.
  - apply list_elem_of_fmap in Hk as (r & -> & Hr). split; [by intros []|].
    intros (i & [_ Hi]%elem_of_difference & ->%(inj parquet_name)).
    by rewrite elem_of_list_to_set in Hi.
  - rewrite (Hd k). split; intros (i & Hi & ->); exists i; (split; [|done]).
    + apply elem_of_difference. split; [done|]. rewrite elem_of_list_to_set.
      intros ?. by apply Hk, list_elem_of_fmap_2.
    + by apply elem_of_difference in Hi as [? _].
Qed.

Lemma reindex_step_moved eps ds index_map idx c :
  new_index eps idx ≠ idx → data_dir ds !! parquet_name idx = Some c →
  reindex_step eps (ds, index_map) idx =
  Ok ({| data_dir := rename_if_exists (parquet_name idx)
                       (parquet_name (new_index eps idx)) (data_dir ds);
         laptop_dir := rename_if_exists (mp4_name idx)
                         (mp4_name (new_index eps idx)) (laptop_dir ds);
         phone_dir := rename_if_exists (mp4_name idx)
                        (mp4_name (new_index eps idx)) (phone_dir ds);
         episodes_jsonl := episodes_jsonl ds;
         episodes_stats_jsonl := episodes_stats_jsonl ds;
         info_json := info_json ds |}, <[idx := new_index eps idx]> index_map).
Proof.
  intros Hmv Hc.
  replace (rename_if_exists (parquet_name idx) (parquet_name (new_index eps idx))
             (data_dir ds))
    with (<[parquet_name (new_index eps idx) := c]>
            (delete (parquet_name idx) (data_dir ds)))
    by (unfold rename_if_exists; by rewrite Hc).
  unfold reindex_step, rename.
  fold (new_index eps idx). rewrite decide_True by done. by rewrite Hc.
Qed.

Lemma reindex_step_missing eps ds index_map idx :
  new_index eps idx ≠ idx → data_dir ds !! parquet_name idx = None →
  reindex_step eps (ds, index_map) idx = Raise FileNotFoundError.
Proof.
  intros Hmv Hc. unfold reindex_step, rename.
  fold (new_index eps idx). rewrite decide_True by done. by rewrite Hc.
Qed.

Lemma reindex_step_kept eps ds index_map idx :
  new_index eps idx = idx →
  reindex_step eps (ds, index_map) idx = Ok (ds, <[idx := idx]> index_map).
Proof.
  intros Hmv. unfold reindex_step.
  fold (new_index eps idx). rewrite decide_False by (by intros []). by rewrite Hmv.
Qed.

(** Lines 47-63, when the file of every listed index is there. *)
Lemma reindex_loop eps l ds index_map :
  StronglySorted Z.lt l →
  (∀ i, i ∈ l → is_Some (data_dir ds !! parquet_name i)) →
  ∃ index_map',
    for_each (reindex_step eps) l (ds, index_map) =
    Ok ({| data_dir := rename_pass parquet_name eps l (data_dir ds);
           laptop_dir := rename_pass mp4_name eps l (laptop_dir ds);
           phone_dir := rename_pass mp4_name eps l (phone_dir ds);
           episodes_jsonl := episodes_jsonl ds;
           episodes_stats_jsonl := episodes_stats_jsonl ds;
           info_json := info_json ds |}, index_map').
Proof.
  intros Hl. revert ds index_map.
  induction Hl as [|a l Hl IH Ha]; intros ds index_map Hin.
  { eexists. by destruct ds. }
  rewrite Forall_forall in Ha. cbn [for_each].
  rewrite !rename_pass_cons.
  destruct (Hin a) as [c Hc]; [apply list_elem_of_here|].
  destruct (decide (new_index eps a ≠ a)) as [Hmv|Hmv].
  - rewrite (reindex_step_moved eps ds index_map a c) by done. cbn [bind].
    edestruct IH as [im ->]; [|by eexists].
    intros i Hi. cbn [data_dir].
    pose proof (lookup_rename_step_later parquet_name eps a (data_dir ds) i (Ha i Hi)) as E.
    rewrite decide_True in E by done.
    rewrite E. by apply Hin, list_elem_of_further.
  - apply dec_stable in Hmv.
    rewrite reindex_step_kept by done. cbn [bind].
    edestruct IH as [im ->]; [|eexists; done].
    intros i Hi. by apply Hin, list_elem_of_further.
Qed.

(** Lines 47-63, whenever they complete. *)
Lemma reindex_loop_inv eps l ds index_map st :
  for_each (reindex_step eps) l (ds, index_map) = Ok st →
  st.1 = {| data_dir := rename_pass parquet_name eps l (data_dir ds);
            laptop_dir := rename_pass mp4_name eps l (laptop_dir ds);
            phone_dir := rename_pass mp4_name eps l (phone_dir ds);
            episodes_jsonl := episodes_jsonl ds;
            episodes_stats_jsonl := episodes_stats_jsonl ds;
            info_json := info_json ds |}.
Proof.
  revert ds index_map. induction l as [|a l IH]; intros ds index_map.
  { intros [= <-]. by destruct ds. }
  cbn [for_each]. rewrite !rename_pass_cons.
  destruct (decide (new_index eps a ≠ a)) as [Hmv|Hmv].
  - destruct (data_dir ds !! parquet_name a) as [c|] eqn:Hc.
    + rewrite (reindex_step_moved eps ds index_map a c) by done. cbn [bind].
      intros Hst. by rewrite (IH _ _ Hst).
    + by rewrite reindex_step_missing.
  - apply dec_stable in Hmv. rewrite reindex_step_kept by done. cbn [bind].
    intros Hst. by rewrite (IH _ _ Hst).
Qed.

(** ** The metadata files *)

Section metadata.

Lemma entry_index_Ok line z :
  entry_index line = Ok z ↔
  ∃ d v, line = Encoded (JObj d) ∧ dict_get "episode_index" d = Some v ∧ as_int v = Ok z.
Proof.
  unfold entry_index. split.
  - destruct line as [[]|]; try done. cbn [loads bind getitem].
    destruct (dict_get _ _) as [v|] eqn:E; [|done]. eauto.
  - intros (d & v & -> & Hv & Hz). cbn [loads bind getitem]. by rewrite Hv.
Qed.

Lemma dict_get_set k v d k' :
  dict_get k' (dict_set k v d) = if decide (k' = k) then Some v else dict_get k' d.
Proof.
  induction d as [|[k0 v0] d IH]; cbn [dict_set dict_get].
  - destruct (String.eqb_spec k' k); by case_decide.
  - destruct (String.eqb_spec k k0) as [->|Hk0]; cbn [dict_get].
    + destruct (String.eqb_spec k' k0); by case_decide.
    + destruct (String.eqb_spec k' k0) as [->|?].
      * by rewrite decide_False by done.
      * apply IH.
Qed.

Lemma dict_set_keys k v d :
  is_Some (dict_get k d) → (dict_set k v d).*1 = d.*1.
Proof.
  induction d as [|[k0 v0] d IH]; cbn [dict_set dict_get]; [by intros []|].
  destruct (String.eqb_spec k k0) as [->|Hk0]; [done|].
  intros H. rewrite !fmap_cons. by rewrite IH.
Qed.

Context (removed_set : gset Z) (eps : list Z).

Lemma rewrite_line_removed lines line z :
  entry_index line = Ok z → z ∈ removed_set →
  rewrite_line removed_set eps lines line = Ok lines.
Proof.
  intros (d & v & -> & Hv & Hz)%entry_index_Ok Hin. unfold rewrite_line.
  cbn [loads bind getitem]. rewrite Hv. cbn [bind]. rewrite Hz. cbn [bind].
  by rewrite decide_True.
Qed.

Lemma rewrite_line_kept lines d v z :
  dict_get "episode_index" d = Some v → as_int v = Ok z → z ∉ removed_set →
  rewrite_line removed_set eps lines (Encoded (JObj d))
  = Ok (lines ++ [JObj (dict_set "episode_index" (JInt (new_index eps z)) d)]).
Proof.
  intros Hv Hz Hin. unfold rewrite_line.
  cbn [loads bind getitem]. rewrite Hv. cbn [bind]. rewrite Hz. cbn [bind].
  by rewrite decide_False.
Qed.

Lemma rewrite_line_Raise lines line e :
  entry_index line = Raise e →
  rewrite_line removed_set eps lines line = Raise e.
Proof.
  unfold entry_index, rewrite_line.
  destruct (loads line) as [entry|]; cbn [bind]; [|by intros [= ->]].
  destruct (getitem entry _) as [v|]; cbn [bind]; [|by intros [= ->]].
  destruct (as_int v); cbn [bind]; [done|by intros [= ->]].
Qed.

Lemma rewrite_loop content lines out :
  for_each (rewrite_line removed_set eps) content lines = Ok out →
  ∃ kept, out = lines ++ kept
    ∧ Forall2 (renumbered eps) (filter (λ line, ¬ dropped removed_set line) content) kept.
Proof.
  revert lines. induction content as [|line content IH]; intros lines.
  { intros [= <-]. exists []. by rewrite app_nil_r. }
  cbn [for_each]. intros (lines' & Hline & Hrest)%bind_Ok.
  destruct (IH _ Hrest) as (kept & -> & Hkept).
  destruct (entry_index line) as [z|e] eqn:Ez.
  2:{ by rewrite (rewrite_line_Raise _ _ e) in Hline. }
  destruct (decide (z ∈ removed_set)) as [Hin|Hnin].
  - rewrite (rewrite_line_removed _ _ z) in Hline by done.
    injection Hline as <-. exists kept. split; [done|].
    rewrite filter_cons_False; [done|]. unfold dropped. rewrite Ez. by intros [].
  - pose proof Ez as (d & v & -> & Hv & Hz)%entry_index_Ok.
    rewrite (rewrite_line_kept _ d v z) in Hline by done.
    injection Hline as <-. eexists (_ :: kept). split; [by rewrite <- app_assoc|].
    rewrite filter_cons_True by (unfold dropped; by rewrite Ez).
    constructor; [|done]. by exists d, v, z.
Qed.

Lemma rewrite_loop_Ok content lines :
  Forall (λ line, ∃ z, entry_index line = Ok z) content →
  ∃ out, for_each (rewrite_line removed_set eps) content lines = Ok out.
Proof.
  intros Hc. revert lines. induction Hc as [|line content [z Hz] _ IH]; intros lines.
  { by eexists. }
  cbn [for_each]. destruct (decide (z ∈ removed_set)) as [Hin|Hnin].
  - rewrite (rewrite_line_removed _ _ z) by done. apply IH.
  - pose proof Hz as (d & v & -> & Hv & Hz')%entry_index_Ok.
    rewrite (rewrite_line_kept _ d v z) by done. apply IH.
Qed.

Lemma rewrite_stream_inv file file' :
  rewrite_stream removed_set eps file = Ok file' →
  ∃ content kept, file = Some content ∧ file' = Some (Encoded <$> kept)
    ∧ Forall2 (renumbered eps) (filter (λ line, ¬ dropped removed_set line) content) kept.
Proof.
  destruct file as [content|]; [|done]. cbn [rewrite_stream].
  intros (out & (kept & -> & Hkept)%rewrite_loop & [= <-])%bind_Ok.
  by exists content, kept.
Qed.

Lemma rewrite_stream_Ok content :
  Forall (λ line, ∃ z, entry_index line = Ok z) content →
  ∃ file', rewrite_stream removed_set eps (Some content) = Ok file'.
Proof.
  intros Hc. cbn [rewrite_stream].
  destruct (rewrite_loop_Ok content [] Hc) as [out ->]. by eexists.
Qed.

End metadata.

Lemma update_info_inv eps file file' :
  update_info eps file = Ok file' →
  ∃ d v total, file = Some (Encoded (JObj d))
    ∧ dict_get "total_episodes" d = Some v ∧ as_int v = Ok total
    ∧ file' = Some (Encoded (JObj (dict_set "total_episodes"
                 (JInt (total - Z.of_nat (length eps))) d))).
Proof.
  destruct file as [[[]|]|]; try done. cbn [update_info loads bind getitem].
  destruct (dict_get _ _) as [v|] eqn:Hv; [|done]. cbn [bind].
  destruct (as_int v) as [total|] eqn:Ht; [|done]. cbn [bind setitem].
  intros [= <-]. by exists fields, v, total.
Qed.

Lemma update_info_Ok eps file total :
  total_episodes file = Ok total → ∃ file', update_info eps file = Ok file'.
Proof.
  destruct file as [[[]|]|]; try done. cbn [total_episodes update_info loads bind getitem].
  destruct (dict_get _ _) as [v|] eqn:Hv; [|done]. cbn [bind].
  intros ->. cbn [bind setitem]. by eexists.
Qed.

Lemma total_episodes_update_info eps file file' total :
  update_info eps file = Ok file' → total_episodes file = Ok total →
  total_episodes file' = Ok (total - Z.of_nat (length eps)).
Proof.
  intros (d & v & t & -> & Hv & Ht & ->)%update_info_inv.
  cbn [total_episodes loads bind getitem]. rewrite Hv. cbn [bind]. rewrite Ht.
  intros [= ->]. by rewrite dict_get_set, decide_True.
Qed.

(** ** The whole run *)

Lemma run_inv ds episodes_to_remove ds' :
  remove_and_reindex ds episodes_to_remove = Ok ds' →
  let eps := Py.sorted_set episodes_to_remove in
  ∃ l, all_indices (unlink_pass parquet_name eps (data_dir ds)) = Ok l
    ∧ files_after eps l ds ds' ∧ meta_after eps ds ds'.
Proof.
  unfold remove_and_reindex. rewrite remove_files_loop. cbn [data_dir].
  intros (l & Hl & (st & Hst%reindex_loop_inv & Hrest)%bind_Ok)%bind_Ok.
  rewrite Hst in Hrest.
  cbn [data_dir laptop_dir phone_dir episodes_jsonl episodes_stats_jsonl info_json] in Hrest.
  apply bind_Ok in Hrest as (e & He & (s & Hs & (i & Hi & [= <-])%bind_Ok)%bind_Ok).
  exists l. by repeat split.
Qed.

Lemma run_tabular ds episodes_to_remove (X : gset Z) :
  tabular (data_dir ds) X →
  let eps := Py.sorted_set episodes_to_remove in
  let l := Py.sorted (elements (X ∖ list_to_set eps)) in
  remove_and_reindex ds episodes_to_remove =
  (episodes ← rewrite_stream (list_to_set eps) eps (episodes_jsonl ds) ;;;
   stats ← rewrite_stream (list_to_set eps) eps (episodes_stats_jsonl ds) ;;;
   info ← update_info eps (info_json ds) ;;;
   Ok {| data_dir := rename_pass parquet_name eps l
                       (unlink_pass parquet_name eps (data_dir ds));
         laptop_dir := rename_pass mp4_name eps l
                         (unlink_pass mp4_name eps (laptop_dir ds));
         phone_dir := rename_pass mp4_name eps l
                        (unlink_pass mp4_name eps (phone_dir ds));
         episodes_jsonl := episodes;
         episodes_stats_jsonl := stats;
         info_json := info |}).
Proof.
  intros Hd eps l. unfold remove_and_reindex. fold eps.
  rewrite remove_files_loop. cbn [data_dir].
  pose proof (tabular_unlink_pass eps _ _ Hd) as Hd'.
  rewrite (all_indices_tabular _ _ Hd'). fold l. cbn [bind].
  edestruct (reindex_loop eps l) as [im ->].
  - apply all_indices_sorted.
  - intros i Hi. cbn [data_dir]. apply (tabular_lookup _ _ _ Hd').
    by apply elem_of_sorted_elements in Hi.
  - done.
Qed.

(** The listing of line 43 on a dataset whose tabular files are those of
    [X]: the indices of [X] that are not removed, in increasing order. *)
Lemma survivors_not_removed (X : gset Z) (l0 : list Z) :
  Forall (λ j, j ∉ Py.sorted_set l0)
    (Py.sorted (elements (X ∖ list_to_set (Py.sorted_set l0)))).
Proof.
  apply Forall_forall. intros i Hi%elem_of_sorted_elements.
  apply elem_of_difference in Hi as [_ Hi]. by rewrite elem_of_list_to_set in Hi.
Qed.

Lemma length_filter_elements (P : Z → Prop) `{!∀ x, Decision (P x)} (R : gset Z) :
  length (filter P (elements R)) = size (filter P R).
Proof.
  unfold size, set_size. cbn. apply Permutation_length, NoDup_Permutation.
  - apply NoDup_filter, NoDup_elements.
  - apply NoDup_elements.
  - intros x. by rewrite list_elem_of_filter, !elem_of_elements, elem_of_filter.
Qed.

Lemma decrement_sorted_set (l : list Z) (i : Z) :
  decrement (Py.sorted_set l) i = removed_below (list_to_set l) i.
Proof.
  rewrite decrement_length. unfold removed_below. f_equal.
  rewrite <- length_filter_elements. apply Permutation_length.
  by rewrite sorted_set_Permutation.
Qed.

(** ** The sample datasets *)

Lemma sample_tabular (indices : list Z) :
  tabular (data_dir (sample indices)) (list_to_set indices).
Proof.
  intros k. rewrite <- elem_of_dom. cbn [sample data_dir].
  rewrite dom_list_to_map_L, elem_of_list_to_set, <- list_fmap_compose, list_elem_of_fmap.
  split; intros (i & Hi & Hk); exists i; by rewrite elem_of_list_to_set in *.
Qed.


(** ** The run in the terms of the specification *)

Lemma run_total_episodes ds episodes_to_remove ds' total :
  remove_and_reindex ds episodes_to_remove = Ok ds' →
  total_episodes (info_json ds) = Ok total →
  total_episodes (info_json ds')
  = Ok (total - Z.of_nat (size (list_to_set episodes_to_remove : gset Z))).
Proof.
  intros (l & _ & _ & _ & _ & Hinfo)%run_inv Ht.
  rewrite (total_episodes_update_info _ _ _ _ Hinfo Ht).
  by rewrite length_sorted_set.
Qed.

Lemma renumbered_record_rewritten (l : list Z) (line : text) (entry' : json) :
  renumbered (Py.sorted_set l) line entry' →
  record_rewritten (list_to_set l) line (Encoded entry').
Proof.
  intros (d & v & z & -> & Hv & Hz & ->).
  exists d, (dict_set "episode_index" (JInt (new_index (Py.sorted_set l) z)) d), z.
  repeat split.
  - apply entry_index_Ok. eauto.
  - rewrite dict_get_set, decide_True by done.
    unfold new_index. by rewrite decrement_sorted_set.
  - intros k Hk. by rewrite dict_get_set, decide_False.
  - apply dict_set_keys. by rewrite Hv.
Qed.

Lemma rewrite_stream_rewritten (l : list Z) (file file' : option (list text)) :
  rewrite_stream (list_to_set (Py.sorted_set l)) (Py.sorted_set l) file = Ok file' →
  stream_rewritten (list_to_set l) file file'.
Proof.
  rewrite list_to_set_sorted_set.
  intros (content & kept & -> & -> & Hkept)%rewrite_stream_inv.
  exists content, (Encoded <$> kept). repeat split.
  apply Forall2_fmap_r. eapply Forall2_impl; [done|].
  apply renumbered_record_rewritten.
Qed.

Lemma streams_rewritten_by_run (ds : dataset) (episodes_to_remove : list Z) :
  let R : gset Z := list_to_set episodes_to_remove in
  (∀ content,
     Forall (λ line, ∃ z, entry_index line = Ok z) content →
     ∃ file', rewrite_stream (list_to_set (Py.sorted_set episodes_to_remove))
                (Py.sorted_set episodes_to_remove) (Some content) = Ok file'
              ∧ stream_rewritten R (Some content) file')
  ∧ (∀ ds', remove_and_reindex ds episodes_to_remove = Ok ds' →
       stream_rewritten R (episodes_jsonl ds) (episodes_jsonl ds')
       ∧ stream_rewritten R (episodes_stats_jsonl ds) (episodes_stats_jsonl ds')).
Proof.
  intros R. split.
  - intros content Hc.
    destruct (rewrite_stream_Ok (list_to_set (Py.sorted_set episodes_to_remove))
                (Py.sorted_set episodes_to_remove) content Hc) as [file' Hf].
    exists file'. split; [done|]. by apply rewrite_stream_rewritten.
  - intros ds' (l & _ & _ & He & Hs & _)%run_inv.
    split; by apply rewrite_stream_rewritten.
Qed.

(** ** Dense numbering *)

Section dense.

Lemma StronglySorted_filter {A : Type} (R : relation A) (P : A → Prop)
    `{!∀ x, Decision (P x)} (l : list A) :
  StronglySorted R l → StronglySorted R (filter P l).
Proof.
  induction 1 as [|x l Hl IH Hx]; [constructor|].
  rewrite filter_cons. case_decide; [|done].
  constructor; [done|]. apply Forall_forall. intros y [_ Hy]%list_elem_of_filter.
  rewrite Forall_forall in Hx. by apply Hx.
Qed.

Lemma StronglySorted_seqZ (a : Z) (n : nat) : StronglySorted Z.lt (seqZ a (Z.of_nat n)).
Proof.
  induction n as [|n IH]; [rewrite seqZ_nil by lia; constructor|].
  rewrite seqZ_S. apply StronglySorted_app_2; [|done|repeat constructor].
  intros x y Hx%elem_of_seqZ ->%list_elem_of_singleton. lia.
Qed.

Context (eps : list Z) (Heps : NoDup eps) (Hnonneg : Forall (λ r, 0 ≤ r) eps).

(** One more index to look at: the count grows by one exactly when that
    index is removed. *)
Lemma decrement_succ (i : Z) :
  decrement eps (i + 1) = decrement eps i + (if decide (i ∈ eps) then 1 else 0).
Proof using Heps.
  clear Hnonneg. induction Heps as [|r l Hr Hl IH]; [done|].
  rewrite !decrement_cons, IH by done.
  destruct (decide (i = r)) as [->|Hne].
  - rewrite (decide_True (P := r ∈ r :: l)) by apply list_elem_of_here.
    rewrite (decide_False (P := r ∈ l)) by done.
    repeat case_decide; lia.
  - destruct (decide (i ∈ l)) as [Hin|Hnin].
    + rewrite (decide_True (P := i ∈ r :: l)) by by apply list_elem_of_further.
      repeat case_decide; lia.
    + rewrite (decide_False (P := i ∈ r :: l))
        by (intros [?|?]%elem_of_cons; done).
      repeat case_decide; lia.
Qed.

Lemma decrement_zero : decrement eps 0 = 0.
Proof using Hnonneg.
  apply decrement_none_below. intros r Hr.
  rewrite Forall_forall in Hnonneg. by apply Hnonneg.
Qed.

(** The indices from 0 up to [m - 1] that are not removed are renumbered
    onto the indices from 0 up to [m - decrement m - 1], in order. *)
Lemma new_index_dense (m : nat) :
  decrement eps (Z.of_nat m) ≤ Z.of_nat m
  ∧ new_index eps <$> filter (λ i, i ∉ eps) (seqZ 0 (Z.of_nat m))
    = seqZ 0 (Z.of_nat m - decrement eps (Z.of_nat m)).
Proof using Heps Hnonneg.
  induction m as [|m [IHle IH]].
  - change (Z.of_nat 0) with 0. rewrite decrement_zero. done.
  - rewrite seqZ_S, filter_app, fmap_app, IH.
    replace (Z.of_nat (S m)) with (Z.of_nat m + 1) by lia.
    rewrite decrement_succ. rewrite Z.add_0_l.
    rewrite filter_cons, filter_nil.
    destruct (decide (Z.of_nat m ∈ eps)) as [Hin|Hnin].
    + rewrite decide_False by (by intros []). split; [lia|].
      rewrite fmap_nil, app_nil_r. f_equal. lia.
    + rewrite decide_True by done. split; [lia|].
      rewrite fmap_cons, fmap_nil.
      replace (Z.of_nat m + 1 - (decrement eps (Z.of_nat m) + 0))
        with ((Z.of_nat m - decrement eps (Z.of_nat m)) + 1) by lia.
      rewrite seqZ_app by lia. by f_equal.
Qed.

End dense.

(** ** Runs on a dataset whose tabular files are those of an index set *)

Section tabular_runs.

Context (ds : dataset) (episodes_to_remove : list Z) (X : gset Z).
Context (Hds : tabular (data_dir ds) X).

Local Abbreviation R := (Py.sorted_set episodes_to_remove).
Local Abbreviation survivors := (Py.sorted (elements (X ∖ list_to_set R))).

Lemma run_tabular_inv ds' :
  remove_and_reindex ds episodes_to_remove = Ok ds' →
  files_after R survivors ds ds' ∧ meta_after R ds ds'.
Proof using Hds.
  rewrite (run_tabular ds episodes_to_remove X Hds). fold R. fold survivors.
  intros (e & He & (s & Hs & (i & Hi & [= <-])%bind_Ok)%bind_Ok)%bind_Ok.
  by repeat split.
Qed.


Lemma elem_of_survivors i : i ∈ survivors ↔ i ∈ X ∧ i ∉ R.
Proof.
  unfold survivors. rewrite elem_of_sorted_elements, elem_of_difference.
  by rewrite elem_of_list_to_set.
Qed.

Lemma survivors_sorted : StronglySorted Z.lt survivors.
Proof. apply all_indices_sorted. Qed.

Lemma survivors_kept : Forall (λ j, j ∉ R) survivors.
Proof. apply Forall_forall. by intros i [_ ?]%elem_of_survivors. Qed.

Lemma survivors_present i :
  i ∈ survivors →
  unlink_pass parquet_name R (data_dir ds) !! parquet_name i
  = data_dir ds !! parquet_name i
  ∧ is_Some (data_dir ds !! parquet_name i).
Proof using Hds.
  intros [HX HR]%elem_of_survivors.
  rewrite lookup_unlink_pass_name by apply _. rewrite decide_False by done.
  split; [done|]. by apply (tabular_lookup _ X).
Qed.

(** The tabular files after the run: those of the new indices of the
    survivors. *)
Lemma run_tabular_data ds' :
  remove_and_reindex ds episodes_to_remove = Ok ds' →
  tabular (data_dir ds') (list_to_set (new_index R <$> survivors)).
Proof using Hds.
  intros [(-> & _ & _) _]%run_tabular_inv k.
  rewrite (lookup_rename_pass_full parquet_name R (NoDup_sorted_set _) survivors).
  - rewrite list_elem_of_fmap. split; intros (i & Hi & Hk); exists i.
    + by rewrite elem_of_list_to_set.
    + by rewrite elem_of_list_to_set in Hi.
  - apply survivors_sorted.
  - apply survivors_kept.
  - intros k'. rewrite (tabular_unlink_pass R _ X Hds k'), list_elem_of_fmap.
    split; intros (i & Hi & Hk); exists i; split; try done.
    + apply elem_of_survivors.
      apply elem_of_difference in Hi as [? Hi]. by rewrite elem_of_list_to_set in Hi.
    + apply elem_of_survivors in Hk as [? ?]. apply elem_of_difference.
      by rewrite elem_of_list_to_set.
Qed.

(** The tabular file of a survivor ends up under its new index. *)
Lemma run_tabular_data_lookup ds' i :
  remove_and_reindex ds episodes_to_remove = Ok ds' →
  i ∈ X → i ∉ R →
  data_dir ds' !! parquet_name (new_index R i) = data_dir ds !! parquet_name i.
Proof using Hds.
  intros [(-> & _ & _) _]%run_tabular_inv HX HR.
  assert (i ∈ survivors) as Hi by by apply elem_of_survivors.
  destruct (survivors_present i Hi) as [Hu [c Hc]]. rewrite Hc.
  apply (lookup_rename_pass_new parquet_name R (NoDup_sorted_set _) survivors);
    [apply survivors_sorted|apply survivors_kept|done|by rewrite Hu].
Qed.

End tabular_runs.

Lemma StronglySorted_seqZ_Z (a n : Z) : StronglySorted Z.lt (seqZ a n).
Proof.
  destruct (decide (n ≤ 0)) as [Hn|Hn]; [rewrite seqZ_nil by done; constructor|].
  rewrite <- (Z2Nat.id n) by lia. apply StronglySorted_seqZ.
Qed.

Lemma sorted_elements_seqZ (n : Z) :
  Py.sorted (elements (list_to_set (seqZ 0 n) : gset Z)) = seqZ 0 n.
Proof.
  rewrite (sorted_Permutation _ (seqZ 0 n))
    by apply elements_list_to_set, NoDup_seqZ.
  apply sorted_sorted, StronglySorted_seqZ_Z.
Qed.

Lemma removed_present_nonneg (l : list Z) (M : Z) :
  Forall (λ r, 0 ≤ r) l →
  removed_present (list_to_set l) M = decrement (Py.sorted_set l) M.
Proof.
  intros Hl. rewrite decrement_sorted_set. unfold removed_present, removed_below.
  do 2 f_equal. apply set_eq. intros r. rewrite !elem_of_filter, elem_of_list_to_set.
  rewrite Forall_forall in Hl. split; intros [? Hr]; (split; [|done]);
    specialize (Hl r Hr); lia.
Qed.

Section tabular_videos.

Context (ds : dataset) (episodes_to_remove : list Z) (X : gset Z).
Context (Hds : tabular (data_dir ds) X).

(** A video of a survivor ends up under the new index of the survivor. *)
Lemma run_tabular_video_lookup ds' i :
  remove_and_reindex ds episodes_to_remove = Ok ds' →
  i ∈ X → i ∉ Py.sorted_set episodes_to_remove →
  (∀ c, laptop_dir ds !! mp4_name i = Some c →
        laptop_dir ds' !! mp4_name (new_index (Py.sorted_set episodes_to_remove) i) = Some c)
  ∧ (∀ c, phone_dir ds !! mp4_name i = Some c →
          phone_dir ds' !! mp4_name (new_index (Py.sorted_set episodes_to_remove) i) = Some c).
Proof using Hds.
  intros Hrun HX HR.
  destruct (run_tabular_inv ds episodes_to_remove X Hds ds' Hrun) as [(_ & -> & ->) _].
  split; intros c Hc;
    (apply (lookup_rename_pass_new mp4_name _ (NoDup_sorted_set _));
     [apply all_indices_sorted|apply survivors_kept|by apply elem_of_survivors|]);
    rewrite lookup_unlink_pass_name by apply _; by rewrite decide_False.
Qed.

End tabular_videos.

Lemma record_rewritten_index (R : gset Z) (line line' : text) (z : Z) :
  record_rewritten R line line' → entry_index line = Ok z →
  entry_index line' = Ok (z - removed_below R z).
Proof.
  intros (d & d' & z' & -> & -> & Hz' & Hget & _) Hz.
  rewrite Hz in Hz'. injection Hz' as <-.
  apply entry_index_Ok. by exists d', (JInt (z - removed_below R z)).
Qed.

Section frame.

Context (name : Z → string) `{!Inj (=) (=) name}.
Context (eps : list Z) (Heps : NoDup eps).


Lemma unlink_pass_absent (d : gmap string payload) :
  (∀ r, r ∈ eps → d !! name r = None) → unlink_pass name eps d = d.
Proof using Inj0.
  intros Hd. apply map_eq. intros k. rewrite lookup_unlink_pass.
  case_decide as Hk; [|done].
  apply list_elem_of_fmap in Hk as (r & -> & Hr). symmetry. by apply Hd.
Qed.

End frame.

Section orphans.

Context (name : Z → string) `{!Inj (=) (=) name}.
Context (eps : list Z) (Heps : NoDup eps).

(** A file that is not the file of a listed index is never the source of
    a rename: its name stays taken. *)
Lemma rename_pass_unlisted_stays l (d : gmap string payload) v :
  v ∉ l → is_Some (d !! name v) → is_Some (rename_pass name eps l d !! name v).
Proof using Inj0.
  revert d. induction l as [|a l IH]; intros d Hv Hd; [done|].
  rewrite rename_pass_cons. apply IH.
  { intros ?. apply Hv. by apply list_elem_of_further. }
  assert (v ≠ a) as Hva by (intros ->; apply Hv, list_elem_of_here).
  case_decide; [|done]. unfold rename_if_exists.
  destruct (d !! name a) as [c|] eqn:Hc; [|done].
  destruct (decide (name (new_index eps a) = name v)) as [->|Hne].
  - rewrite lookup_insert_eq. by eexists.
  - rewrite lookup_insert_ne by done.
    by rewrite lookup_delete_ne by (intros ?%(inj name); done).
Qed.

End orphans.

Section example_passes.

Context (name : Z → string) `{!Inj (=) (=) name}.

(** The two passes of the example on one directory, whatever it holds. *)
Lemma example_passes_lookup (d : gmap string payload) :
  let d' := rename_pass name [1; 3] [0; 2; 4] (unlink_pass name [1; 3] d) in
  d' !! name 0 = d !! name 0
  ∧ d' !! name 1 = d !! name 2
  ∧ d' !! name 2 = d !! name 4
  ∧ d' !! name 3 = None
  ∧ d' !! name 4 = None
  ∧ (∀ k, k ∉ name <$> [0; 1; 2; 3; 4] → d' !! k = d !! k).
Proof.
  assert (∀ i j : Z, i ≠ j → name i ≠ name j) as Hne.
  { intros i j Hij Heq. by apply Hij, (inj name). }
  pose proof (Hne 0 1 ltac:(lia)). pose proof (Hne 0 2 ltac:(lia)).
  pose proof (Hne 0 3 ltac:(lia)). pose proof (Hne 0 4 ltac:(lia)).
  pose proof (Hne 1 2 ltac:(lia)). pose proof (Hne 1 3 ltac:(lia)).
  pose proof (Hne 1 4 ltac:(lia)). pose proof (Hne 2 3 ltac:(lia)).
  pose proof (Hne 2 4 ltac:(lia)). pose proof (Hne 3 4 ltac:(lia)).
  intros d'. unfold d', rename_pass, unlink_pass. cbn [foldl].
  change (new_index [1; 3] 0) with 0. change (new_index [1; 3] 2) with 1.
  change (new_index [1; 3] 4) with 2.
  rewrite (decide_False (P := 0 ≠ 0)) by lia.
  rewrite (decide_True (P := 1 ≠ 2)) by lia.
  rewrite (decide_True (P := 2 ≠ 4)) by lia.
  rewrite !unlink_if_exists_delete. unfold rename_if_exists.
  assert (∀ k, k ∉ name <$> [0; 1; 2; 3; 4] →
            k ≠ name 0 ∧ k ≠ name 1 ∧ k ≠ name 2 ∧ k ≠ name 3 ∧ k ≠ name 4) as Hout.
  { intros k Hk. repeat split; intros ->; apply Hk, list_elem_of_fmap;
      eexists; (split; [done|]); rewrite !elem_of_cons; auto 10. }
  rewrite !(lookup_delete_ne _ _ (name 2)) by done.
  destruct (d !! name 2) as [c2|] eqn:E2.
  - rewrite (lookup_insert_ne _ _ (name 4)) by done.
    rewrite !(lookup_delete_ne _ _ (name 4)) by done.
    destruct (d !! name 4) as [c4|] eqn:E4.
    + repeat split; [..|intros k (? & ? & ? & ? & ?)%Hout]; by simplify_map_eq.
    + repeat split; [..|intros k (? & ? & ? & ? & ?)%Hout]; by simplify_map_eq.
  - rewrite !(lookup_delete_ne _ _ (name 4)) by done.
    destruct (d !! name 4) as [c4|] eqn:E4.
    + repeat split; [..|intros k (? & ? & ? & ? & ?)%Hout]; by simplify_map_eq.
    + repeat split; [..|intros k (? & ? & ? & ? & ?)%Hout]; by simplify_map_eq.
Qed.

End example_passes.

(** * The claims *)

(** An episode index is a non-negative integer, and the statement of
    density below asks it of the removal list. The function itself takes any
    [int]: with the tabular files of episodes 0, 1 and 2 and the list [-1],
    which names no episode, no file is removed and the run renames the
    three files to the indices -1, 0 and 1, so no file is left for index
    2. *)
Lemma negative_index_breaks_density :
  ¬ (∀ (M : nat) ds ds' episodes_to_remove,
       tabular (data_dir ds) (list_to_set (seqZ 0 (Z.of_nat M))) →
       remove_and_reindex ds episodes_to_remove = Ok ds' →
       let N := Z.of_nat M - removed_present (list_to_set episodes_to_remove) (Z.of_nat M) in
       tabular (data_dir ds') (list_to_set (seqZ 0 N))).
Proof.
  intros H.
  specialize (H 3%nat (sample [0; 1; 2]) (outcome (sample [0; 1; 2]) [-1]) [-1]
                (sample_tabular [0; 1; 2])).
  assert (remove_and_reindex (sample [0; 1; 2]) [-1]
          = Ok (outcome (sample [0; 1; 2]) [-1])) as Hrun by (vm_compute; reflexivity).
  specialize (H Hrun). cbv zeta in H.
  assert (is_Some (data_dir (outcome (sample [0; 1; 2]) [-1]) !! parquet_name 2)) as [c Hc].
  { apply H. exists 2. split; [|done]. by vm_compute. }
  by vm_compute in Hc.
Qed.

(** C1. On a dataset whose tabular files are those of the indices 0 to
    M - 1, a run that completes on a removal list of episode indices, which
    are non-negative integers, leaves the tabular files of exactly the
    indices 0 to N - 1, where N is M minus the number of removed indices
    that had a file; the listing of lines 42-43 then reads 0, ..., N - 1
    from the directory. *)
Theorem surviving_indices_dense (M : nat) (ds ds' : dataset) (episodes_to_remove : list Z) :
  tabular (data_dir ds) (list_to_set (seqZ 0 (Z.of_nat M))) →
  Forall (λ r, 0 ≤ r) episodes_to_remove →
  remove_and_reindex ds episodes_to_remove = Ok ds' →
  let N := Z.of_nat M - removed_present (list_to_set episodes_to_remove) (Z.of_nat M) in
  tabular (data_dir ds') (list_to_set (seqZ 0 N))
  ∧ all_indices (data_dir ds') = Ok (seqZ 0 N).
Proof.
  intros Hds Hnonneg Hrun N.
  assert (tabular (data_dir ds') (list_to_set (seqZ 0 N))) as Hds'.
  { pose proof (run_tabular_data ds episodes_to_remove _ Hds ds' Hrun) as Hd.
    cbv zeta in Hd.
    set (R := Py.sorted_set episodes_to_remove) in *.
    assert (Py.sorted (elements ((list_to_set (seqZ 0 (Z.of_nat M)) : gset Z) ∖ list_to_set R))
            = filter (λ i, i ∉ R) (seqZ 0 (Z.of_nat M))) as Hl.
    { rewrite (sorted_Permutation _ (filter (λ i, i ∉ R) (seqZ 0 (Z.of_nat M)))).
      - apply sorted_sorted, StronglySorted_filter, StronglySorted_seqZ.
      - apply NoDup_Permutation.
        + apply NoDup_elements.
        + apply NoDup_filter, NoDup_seqZ.
        + intros i. rewrite elem_of_elements, elem_of_difference, list_elem_of_filter.
          rewrite !elem_of_list_to_set. tauto. }
    rewrite Hl in Hd.
    assert (Forall (λ r, 0 ≤ r) R) as HR.
    { apply Forall_forall. intros r Hr. unfold R in Hr.
      apply (proj1 (elem_of_sorted_set _ _)) in Hr.
      rewrite Forall_forall in Hnonneg. by apply Hnonneg. }
    destruct (new_index_dense R (NoDup_sorted_set _) HR M) as [_ Hdense].
    rewrite Hdense in Hd. unfold N.
    by rewrite removed_present_nonneg. }
  split; [done|].
  rewrite (all_indices_tabular _ _ Hds'). f_equal. apply sorted_elements_seqZ.
Qed.

Lemma surviving_indices_dense_witness :
  let ds := sample [0; 1; 2; 3; 4] in
  let ds' := outcome ds [3; 1; 3; 7] in
  remove_and_reindex ds [3; 1; 3; 7] = Ok ds'
  ∧ tabular (data_dir ds') (list_to_set (seqZ 0 3))
  ∧ all_indices (data_dir ds') = Ok (seqZ 0 3).
Proof.
  intros ds ds'.
  assert (remove_and_reindex ds [3; 1; 3; 7] = Ok ds') as Hrun by (vm_compute; reflexivity).
  split; [exact Hrun|].
  apply (surviving_indices_dense 5 ds ds' [3; 1; 3; 7]).
  - exact (sample_tabular [0; 1; 2; 3; 4]).
  - repeat constructor; lia.
  - exact Hrun.
Defined.

(** C2. Each of the two metadata streams is rewritten so that exactly the
    records whose [episode_index] is in the removal set are dropped, each
    kept record has its [episode_index] lowered by the count of removed
    indices strictly below it, every other field and the order of the fields
    are as before, and the kept records stay in their order. The rewrite of
    a stream whose lines all carry an integer [episode_index] completes. *)
Theorem metadata_streams_rewritten (ds : dataset) (episodes_to_remove : list Z) :
  let R : gset Z := list_to_set episodes_to_remove in
  (∀ content,
     Forall (λ line, ∃ z, entry_index line = Ok z) content →
     ∃ file', rewrite_stream (list_to_set (Py.sorted_set episodes_to_remove))
                (Py.sorted_set episodes_to_remove) (Some content) = Ok file'
              ∧ stream_rewritten R (Some content) file')
  ∧ (∀ ds', remove_and_reindex ds episodes_to_remove = Ok ds' →
       stream_rewritten R (episodes_jsonl ds) (episodes_jsonl ds')
       ∧ stream_rewritten R (episodes_stats_jsonl ds) (episodes_stats_jsonl ds')).
Proof. apply streams_rewritten_by_run. Qed.

Lemma metadata_streams_rewritten_witness :
  let ds := sample [0; 1; 2; 3; 4] in
  let ds' := outcome ds [3; 1; 3] in
  remove_and_reindex ds [3; 1; 3] = Ok ds'
  ∧ stream_rewritten (list_to_set [3; 1; 3]) (episodes_jsonl ds) (episodes_jsonl ds')
  ∧ stream_rewritten (list_to_set [3; 1; 3]) (episodes_stats_jsonl ds) (episodes_stats_jsonl ds').
Proof.
  intros ds ds'.
  assert (remove_and_reindex ds [3; 1; 3] = Ok ds') as Hrun by (vm_compute; reflexivity).
  split; [exact Hrun|].
  exact (proj2 (metadata_streams_rewritten ds [3; 1; 3]) ds' Hrun).
Defined.

(** C3. After the run, [total_episodes] in [info.json] is its value before
    the run minus the number of distinct indices of the input list; an index
    given twice is counted once. The update of the counter itself always
    goes through when the document holds an integer counter. *)
Theorem total_episodes_minus_distinct (ds : dataset) (episodes_to_remove : list Z) (total : Z) :
  total_episodes (info_json ds) = Ok total →
  let distinct := Z.of_nat (size (list_to_set episodes_to_remove : gset Z)) in
  (∃ file', update_info (Py.sorted_set episodes_to_remove) (info_json ds) = Ok file'
            ∧ total_episodes file' = Ok (total - distinct))
  ∧ (∀ ds', remove_and_reindex ds episodes_to_remove = Ok ds' →
            total_episodes (info_json ds') = Ok (total - distinct)).
Proof.
  intros Ht distinct. split.
  - destruct (update_info_Ok (Py.sorted_set episodes_to_remove) _ _ Ht) as [file' Hf].
    exists file'. split; [done|].
    rewrite (total_episodes_update_info _ _ _ _ Hf Ht). by rewrite length_sorted_set.
  - intros ds' Hrun. by apply (run_total_episodes ds episodes_to_remove).
Qed.

Lemma total_episodes_minus_distinct_witness :
  total_episodes (info_json (sample [0; 1; 2; 3; 4])) = Ok 5
  ∧ ((∃ file', update_info (Py.sorted_set [3; 1; 3]) (info_json (sample [0; 1; 2; 3; 4])) = Ok file'
               ∧ total_episodes file' = Ok (5 - 2))
     ∧ (∀ ds', remove_and_reindex (sample [0; 1; 2; 3; 4]) [3; 1; 3] = Ok ds' →
               total_episodes (info_json ds') = Ok (5 - 2))).
Proof.
  split; [reflexivity|].
  apply (total_episodes_minus_distinct (sample [0; 1; 2; 3; 4]) [3; 1; 3] 5). reflexivity.
Defined.

(** C4, as stated, fails: with the removal list [1, 1, 5], no file for index
    5 and a file for index 1, the run on three episodes takes the counter
    from 3 to 1, not to 2. *)
Lemma counter_counts_absent_index :
  ¬ (∀ ds ds' total,
       data_dir ds !! parquet_name 5 = None →
       is_Some (data_dir ds !! parquet_name 1) →
       remove_and_reindex ds [1; 1; 5] = Ok ds' →
       total_episodes (info_json ds) = Ok total →
       total_episodes (info_json ds') = Ok (total - 1)).
Proof.
  intros H.
  destruct (remove_and_reindex (sample [0; 1; 2]) [1; 1; 5]) as [ds'|e] eqn:Hrun;
    [|by vm_compute in Hrun].
  specialize (H (sample [0; 1; 2]) ds' 3).
  rewrite (run_total_episodes _ _ _ 3 Hrun) in H by reflexivity.
  assert (Ok (3 - Z.of_nat (size (list_to_set [1; 1; 5] : gset Z))) = Ok (3 - 1)) as Heq.
  { apply H; [reflexivity|by eexists|done|reflexivity]. }
  by vm_compute in Heq.
Qed.

(** C4, amended. With the removal list [1, 1, 5] and no file for index 5,
    the removal loop deletes the files of episode 1 and nothing else, and
    the counter decreases by exactly 2, the number of distinct indices of
    the list: the absent index 5 is counted too. *)
Theorem counter_decreases_by_distinct_count (ds ds' : dataset) (total : Z) :
  data_dir ds !! parquet_name 5 = None →
  laptop_dir ds !! mp4_name 5 = None →
  phone_dir ds !! mp4_name 5 = None →
  is_Some (data_dir ds !! parquet_name 1) →
  remove_and_reindex ds [1; 1; 5] = Ok ds' →
  total_episodes (info_json ds) = Ok total →
  data_dir (foldl remove_files ds (Py.sorted_set [1; 1; 5])) = delete (parquet_name 1) (data_dir ds)
  ∧ laptop_dir (foldl remove_files ds (Py.sorted_set [1; 1; 5])) = delete (mp4_name 1) (laptop_dir ds)
  ∧ phone_dir (foldl remove_files ds (Py.sorted_set [1; 1; 5])) = delete (mp4_name 1) (phone_dir ds)
  ∧ total_episodes (info_json ds') = Ok (total - 2).
Proof.
  intros Hd Hl Hp _ Hrun Ht.
  change (Py.sorted_set [1; 1; 5]) with [1; 5].
  cbn [foldl remove_files data_dir laptop_dir phone_dir].
  rewrite !unlink_if_exists_delete.
  rewrite !(delete_id (delete _ _)) by (by rewrite lookup_delete_ne by (by intros ?%(inj _))).
  repeat split; try done.
  by rewrite (run_total_episodes _ _ _ total Hrun).
Qed.

Lemma counter_decreases_by_distinct_count_witness :
  let ds := sample [0; 1; 2] in
  let ds' := outcome ds [1; 1; 5] in
  remove_and_reindex ds [1; 1; 5] = Ok ds'
  ∧ data_dir (foldl remove_files ds (Py.sorted_set [1; 1; 5])) = delete (parquet_name 1) (data_dir ds)
  ∧ laptop_dir (foldl remove_files ds (Py.sorted_set [1; 1; 5])) = delete (mp4_name 1) (laptop_dir ds)
  ∧ phone_dir (foldl remove_files ds (Py.sorted_set [1; 1; 5])) = delete (mp4_name 1) (phone_dir ds)
  ∧ total_episodes (info_json ds') = Ok (3 - 2).
Proof.
  intros ds ds'.
  assert (remove_and_reindex ds [1; 1; 5] = Ok ds') as Hrun by (vm_compute; reflexivity).
  split; [exact Hrun|].
  apply (counter_decreases_by_distinct_count ds ds' 3);
    [reflexivity|reflexivity|reflexivity|by eexists|exact Hrun|reflexivity].
Defined.

(** C5. The renumbering is injective on the indices that are not removed,
    and the renaming loop, which takes the surviving indices in increasing
    order, never renames a file onto a name that is still taken: at the
    moment an index is renamed, no tabular file has its new name, and no
    video file either when every video belongs to an episode with a tabular
    file. *)
Theorem renames_never_collide (ds : dataset) (episodes_to_remove : list Z) (X : gset Z) :
  tabular (data_dir ds) X →
  let R := Py.sorted_set episodes_to_remove in
  let removed := foldl remove_files ds R in
  (∀ i j, i ∉ R → j ∉ R → new_index R i = new_index R j → i = j)
  ∧ ∃ survivors,
      all_indices (data_dir removed) = Ok survivors
      ∧ StronglySorted Z.lt survivors
      ∧ (∀ i, i ∈ survivors ↔ i ∈ X ∧ i ∉ R)
      ∧ ∀ l1 idx l2,
          survivors = l1 ++ idx :: l2 →
          ∃ st, for_each (reindex_step R) l1 (removed, ∅) = Ok st
            ∧ (new_index R idx ≠ idx →
               data_dir st.1 !! parquet_name (new_index R idx) = None
               ∧ (videos_of (laptop_dir ds) X →
                  laptop_dir st.1 !! mp4_name (new_index R idx) = None)
               ∧ (videos_of (phone_dir ds) X →
                  phone_dir st.1 !! mp4_name (new_index R idx) = None)).
Proof.
  intros Hds R removed. split.
  { intros i j. apply new_index_inj, NoDup_sorted_set. }
  pose proof (NoDup_sorted_set episodes_to_remove) as HR. fold R in HR.
  set (survivors := Py.sorted (elements (X ∖ list_to_set R))).
  pose proof (tabular_unlink_pass R _ X Hds) as Hd.
  assert (∀ i, i ∈ survivors ↔ i ∈ X ∧ i ∉ R) as Hin
    by apply elem_of_survivors.
  exists survivors. unfold removed. rewrite remove_files_loop. cbn [data_dir].
  split; [by apply all_indices_tabular|].
  split; [apply all_indices_sorted|]. split; [done|].
  intros l1 idx l2 Hl.
  pose proof (all_indices_sorted (X ∖ list_to_set R)) as Hsorted.
  fold survivors in Hsorted. rewrite Hl in Hsorted.
  assert (Forall (λ j, j ∉ R) (l1 ++ idx :: l2)) as Hkept.
  { rewrite <- Hl. apply Forall_forall. by intros i [_ ?]%Hin. }
  edestruct (reindex_loop R l1) as [im ->].
  { by apply StronglySorted_app_1_l in Hsorted. }
  { intros i Hi. cbn [data_dir]. apply (tabular_lookup _ _ _ Hd).
    apply elem_of_difference. rewrite elem_of_list_to_set. apply Hin.
    rewrite Hl. apply elem_of_app. by left. }
  eexists. split; [done|]. intros Hmv. cbn [fst data_dir laptop_dir phone_dir].
  assert (∀ (name : Z → string) (d : gmap string payload), Inj (=) (=) name →
            (∀ k, is_Some (d !! k) → ∃ i, i ∈ X ∧ k = name i) →
            rename_pass name R l1 (unlink_pass name R d) !! name (new_index R idx) = None)
    as Hfree.
  { intros name d Hname Hd'.
    apply (rename_pass_destination_free name R HR l1 idx l2); [done..| |done].
    intros k. rewrite lookup_unlink_pass. case_decide as Hk; [by intros []|].
    intros (i & Hi & ->)%Hd'. apply list_elem_of_fmap_2. rewrite <- Hl. apply Hin.
    split; [done|]. intros ?. by apply Hk, list_elem_of_fmap_2. }
  split; [|split]; intros; apply Hfree; try apply _; try done.
  intros k Hk. by apply Hds.
Qed.

Lemma renames_never_collide_witness :
  let ds := sample [0; 1; 2; 3; 4] in
  let R := Py.sorted_set [3; 1; 3] in
  let removed := foldl remove_files ds R in
  (∀ i j, i ∉ R → j ∉ R → new_index R i = new_index R j → i = j)
  ∧ ∃ survivors,
      all_indices (data_dir removed) = Ok survivors
      ∧ StronglySorted Z.lt survivors
      ∧ (∀ i, i ∈ survivors ↔ i ∈ (list_to_set [0; 1; 2; 3; 4] : gset Z) ∧ i ∉ R)
      ∧ ∀ l1 idx l2,
          survivors = l1 ++ idx :: l2 →
          ∃ st, for_each (reindex_step R) l1 (removed, ∅) = Ok st
            ∧ (new_index R idx ≠ idx →
               data_dir st.1 !! parquet_name (new_index R idx) = None
               ∧ (videos_of (laptop_dir ds) (list_to_set [0; 1; 2; 3; 4]) →
                  laptop_dir st.1 !! mp4_name (new_index R idx) = None)
               ∧ (videos_of (phone_dir ds) (list_to_set [0; 1; 2; 3; 4]) →
                  phone_dir st.1 !! mp4_name (new_index R idx) = None)).
Proof.
  apply (renames_never_collide (sample [0; 1; 2; 3; 4]) [3; 1; 3] (list_to_set [0; 1; 2; 3; 4])).
  apply sample_tabular.
Defined.

(** C6. With the tabular files of episodes 0 to 4 and the removal list
    [1, 3]: the files of old 0, 2 and 4 end up as 0, 1 and 2 and no other
    tabular file is left; [total_episodes] decreases by 2; the videos of
    both cameras follow the same mapping, and that exactly: in each video
    directory the names of 0, 1 and 2 hold what the names of 0, 2 and 4
    held (a video or none), the names of 3 and 4 are free, so the videos of
    the removed episodes are gone, and every other file is as before; and
    [episodes.jsonl], when it holds the records of episodes 0 to 4, keeps
    the three records of old 0, 2 and 4, in that order, with the indices 0,
    1 and 2. *)
Theorem example_remove_1_and_3 (ds ds' : dataset) :
  tabular (data_dir ds) (list_to_set [0; 1; 2; 3; 4]) →
  remove_and_reindex ds [1; 3] = Ok ds' →
  (data_dir ds' !! parquet_name 0 = data_dir ds !! parquet_name 0
   ∧ data_dir ds' !! parquet_name 1 = data_dir ds !! parquet_name 2
   ∧ data_dir ds' !! parquet_name 2 = data_dir ds !! parquet_name 4
   ∧ tabular (data_dir ds') (list_to_set [0; 1; 2]))
  ∧ (∀ total, total_episodes (info_json ds) = Ok total →
              total_episodes (info_json ds') = Ok (total - 2))
  ∧ (∀ old new, (old, new) ∈ [(0, 0); (2, 1); (4, 2)] →
       (∀ c, laptop_dir ds !! mp4_name old = Some c →
             laptop_dir ds' !! mp4_name new = Some c)
       ∧ (∀ c, phone_dir ds !! mp4_name old = Some c →
               phone_dir ds' !! mp4_name new = Some c))
  ∧ (∀ dir, dir ∈ [laptop_dir; phone_dir] →
       dir ds' !! mp4_name 0 = dir ds !! mp4_name 0
       ∧ dir ds' !! mp4_name 1 = dir ds !! mp4_name 2
       ∧ dir ds' !! mp4_name 2 = dir ds !! mp4_name 4
       ∧ dir ds' !! mp4_name 3 = None
       ∧ dir ds' !! mp4_name 4 = None
       ∧ (∀ k, k ∉ mp4_name <$> [0; 1; 2; 3; 4] → dir ds' !! k = dir ds !! k))
  ∧ (∀ r0 r1 r2 r3 r4,
       episodes_jsonl ds = Some [r0; r1; r2; r3; r4] →
       entry_index <$> [r0; r1; r2; r3; r4] = Ok <$> [0; 1; 2; 3; 4] →
       ∃ r0' r2' r4',
         episodes_jsonl ds' = Some [r0'; r2'; r4']
         ∧ entry_index <$> [r0'; r2'; r4'] = Ok <$> [0; 1; 2]
         ∧ record_rewritten (list_to_set [1; 3]) r0 r0'
         ∧ record_rewritten (list_to_set [1; 3]) r2 r2'
         ∧ record_rewritten (list_to_set [1; 3]) r4 r4').
Proof.
  intros Hds Hrun.
  assert (Py.sorted_set [1; 3] = [1; 3]) as HR by reflexivity.
  assert (∀ i, i ∈ [0; 2; 4] →
            i ∈ (list_to_set [0; 1; 2; 3; 4] : gset Z) ∧ i ∉ Py.sorted_set [1; 3]) as Hsurv.
  { intros i Hi. rewrite HR, elem_of_list_to_set, !elem_of_cons, !elem_of_nil in *. lia. }
  assert (∀ old new, (old, new) ∈ [(0, 0); (2, 1); (4, 2)] →
            old ∈ [0; 2; 4] ∧ new_index (Py.sorted_set [1; 3]) old = new) as Hmap.
  { intros old new Hin. rewrite HR, !elem_of_cons, !elem_of_nil in *.
    destruct Hin as [[= -> ->]|[[= -> ->]|[[= -> ->]|[]]]]; split; auto. }
  split; [|split; [|split; [|split]]].
  - pose proof (λ i Hi, run_tabular_data_lookup ds [1; 3] _ Hds ds' i Hrun
                          (proj1 (Hsurv i Hi)) (proj2 (Hsurv i Hi))) as Hlook.
    rewrite HR in Hlook.
    split; [|split; [|split]].
    + apply (Hlook 0). rewrite !elem_of_cons. auto.
    + apply (Hlook 2). rewrite !elem_of_cons. auto.
    + apply (Hlook 4). rewrite !elem_of_cons. auto.
    + pose proof (run_tabular_data ds [1; 3] _ Hds ds' Hrun) as Hd.
      match type of Hd with
      | tabular _ (list_to_set ?l) =>
          assert (l = [0; 1; 2]) as E by (vm_compute; reflexivity)
      end.
      by rewrite E in Hd.
  - intros total Ht. by rewrite (run_total_episodes _ _ _ total Hrun Ht).
  - intros old new [Hold <-]%Hmap. apply Hsurv in Hold as [HX HnR].
    by apply (run_tabular_video_lookup ds [1; 3] _ Hds ds').
  - destruct (run_tabular_inv ds [1; 3] _ Hds ds' Hrun) as [(_ & Hlaptop & Hphone) _].
    rewrite HR in Hlaptop, Hphone.
    match type of Hlaptop with
    | _ = rename_pass _ _ ?l _ =>
        assert (l = [0; 2; 4]) as E by (vm_compute; reflexivity)
    end.
    rewrite E in Hlaptop, Hphone.
    intros dir [->|[->|[]%elem_of_nil]%elem_of_cons]%elem_of_cons.
    + rewrite Hlaptop. apply (example_passes_lookup mp4_name).
    + rewrite Hphone. apply (example_passes_lookup mp4_name).
  - intros r0 r1 r2 r3 r4 Hfile [= H0 H1 H2 H3 H4].
    destruct (proj2 (streams_rewritten_by_run ds [1; 3]) ds' Hrun)
      as [(content & content' & Hc & Hc' & Hrel) _].
    rewrite Hfile in Hc. injection Hc as <-.
    assert (filter (λ line, ¬ dropped (list_to_set [1; 3]) line) [r0; r1; r2; r3; r4]
            = [r0; r2; r4]) as Hkept.
    { assert (∀ r z, entry_index r = Ok z →
                dropped (list_to_set [1; 3]) r ↔ z = 1 ∨ z = 3) as Hdrop.
      { intros r z Hz. unfold dropped. rewrite Hz, elem_of_list_to_set.
        rewrite !elem_of_cons, elem_of_nil. tauto. }
      rewrite (filter_cons_True _ r0) by (rewrite (Hdrop _ _ H0); lia).
      rewrite (filter_cons_False _ r1) by (rewrite (Hdrop _ _ H1); tauto).
      rewrite (filter_cons_True _ r2) by (rewrite (Hdrop _ _ H2); lia).
      rewrite (filter_cons_False _ r3) by (rewrite (Hdrop _ _ H3); tauto).
      by rewrite (filter_cons_True _ r4) by (rewrite (Hdrop _ _ H4); lia). }
    rewrite Hkept in Hrel.
    apply Forall2_cons_inv_l in Hrel as (r0' & t0 & Hr0 & Hrel & ->).
    apply Forall2_cons_inv_l in Hrel as (r2' & t2 & Hr2 & Hrel & ->).
    apply Forall2_cons_inv_l in Hrel as (r4' & t4 & Hr4 & ->%Forall2_nil_inv_l & ->).
    exists r0', r2', r4'. repeat split; try done.
    cbn [fmap list_fmap].
    rewrite (record_rewritten_index _ _ _ 0 Hr0 H0).
    rewrite (record_rewritten_index _ _ _ 2 Hr2 H2).
    rewrite (record_rewritten_index _ _ _ 4 Hr4 H4).
    reflexivity.
Qed.

Lemma example_remove_1_and_3_witness :
  let ds := sample [0; 1; 2; 3; 4] in
  let ds' := outcome ds [1; 3] in
  remove_and_reindex ds [1; 3] = Ok ds'
  ∧ (data_dir ds' !! parquet_name 0 = data_dir ds !! parquet_name 0
     ∧ data_dir ds' !! parquet_name 1 = data_dir ds !! parquet_name 2
     ∧ data_dir ds' !! parquet_name 2 = data_dir ds !! parquet_name 4
     ∧ tabular (data_dir ds') (list_to_set [0; 1; 2]))
  ∧ total_episodes (info_json ds') = Ok (5 - 2)
  ∧ (laptop_dir ds' !! mp4_name 1 = laptop_dir ds !! mp4_name 2
     ∧ laptop_dir ds' !! mp4_name 2 = laptop_dir ds !! mp4_name 4
     ∧ laptop_dir ds' !! mp4_name 3 = None
     ∧ laptop_dir ds' !! mp4_name 4 = None).
Proof.
  intros ds ds'.
  assert (remove_and_reindex ds [1; 3] = Ok ds') as Hrun by (vm_compute; reflexivity).
  split; [exact Hrun|].
  destruct (example_remove_1_and_3 ds ds' (sample_tabular [0; 1; 2; 3; 4]) Hrun)
    as (Hdata & Htotal & _ & Hvideos & _).
  split; [exact Hdata|]. split; [apply Htotal; reflexivity|].
  assert (laptop_dir ∈ [laptop_dir; phone_dir]) as Hdir by apply list_elem_of_here.
  destruct (Hvideos laptop_dir Hdir) as (_ & H1 & H2 & H3 & H4 & _).
  exact (conj H1 (conj H2 (conj H3 H4))).
Defined.

(** C7. For a fixed removal list, [decrement] is monotonic non-decreasing
    in the index: it counts no fewer removed indices below a larger index. *)
Theorem decrement_monotone (episodes_to_remove : list Z) (i j : Z) :
  i ≤ j → decrement episodes_to_remove i ≤ decrement episodes_to_remove j.
Proof. apply decrement_mono. Qed.

Lemma decrement_monotone_witness : decrement [1; 3] 2 ≤ decrement [1; 3] 4.
Proof. apply (decrement_monotone [1; 3] 2 4). lia. Defined.

(** C8. Two removal lists with the same set of indices, whatever their
    order and repetitions, give the same outcome of the run on the same
    dataset: line 22 turns the list into a sorted list without duplicates
    before anything else reads it. *)
Theorem removal_list_is_a_set (ds : dataset) (l1 l2 : list Z) :
  (list_to_set l1 : gset Z) = list_to_set l2 →
  remove_and_reindex ds l1 = remove_and_reindex ds l2.
Proof.
  intros H. unfold remove_and_reindex.
  replace (Py.sorted_set l2) with (Py.sorted_set l1); [done|].
  unfold Py.sorted_set. by rewrite H.
Qed.

Lemma removal_list_is_a_set_witness :
  remove_and_reindex (sample [0; 1; 2; 3]) [3; 1; 3]
  = remove_and_reindex (sample [0; 1; 2; 3]) [1; 3].
Proof. apply (removal_list_is_a_set (sample [0; 1; 2; 3]) [3; 1; 3] [1; 3]). reflexivity. Defined.




(** C10, as stated, fails: with the tabular files of episodes 0, 1 and 3, a
    laptop video for index 2 and the removal list [0], the video of episode
    3 is renamed onto the video of index 2, which has no tabular file and is
    not removed; its content is lost. *)
Lemma orphan_video_overwritten :
  ¬ (∀ ds episodes_to_remove ds' v,
       data_dir ds !! parquet_name v = None →
       v ∉ episodes_to_remove →
       is_Some (laptop_dir ds !! mp4_name v) →
       remove_and_reindex ds episodes_to_remove = Ok ds' →
       laptop_dir ds' !! mp4_name v = laptop_dir ds !! mp4_name v).
Proof.
  intros H.
  specialize (H sample_orphan [0] (outcome sample_orphan [0]) 2).
  assert (laptop_dir (outcome sample_orphan [0]) !! mp4_name 2
          = laptop_dir sample_orphan !! mp4_name 2) as Heq.
  { apply H.
    - reflexivity.
    - intros ?%list_elem_of_singleton. lia.
    - by eexists.
    - vm_compute; reflexivity. }
  by vm_compute in Heq.
Qed.

(** C10, amended. A video whose index has no tabular file and is not in the
    removal list is never deleted and never the source of a rename, so its
    name stays taken; it keeps its content as well unless the video of a
    surviving episode is renamed onto its index, which replaces it. *)
Theorem orphan_video_kept_unless_renamed_onto (ds ds' : dataset)
    (episodes_to_remove : list Z) (X : gset Z) (v : Z) :
  tabular (data_dir ds) X →
  v ∉ X → v ∉ episodes_to_remove →
  remove_and_reindex ds episodes_to_remove = Ok ds' →
  let R := Py.sorted_set episodes_to_remove in
  (is_Some (laptop_dir ds !! mp4_name v) → is_Some (laptop_dir ds' !! mp4_name v))
  ∧ (is_Some (phone_dir ds !! mp4_name v) → is_Some (phone_dir ds' !! mp4_name v))
  ∧ ((∀ j, j ∈ X → j ∉ R → is_Some (laptop_dir ds !! mp4_name j) → new_index R j ≠ v) →
     laptop_dir ds' !! mp4_name v = laptop_dir ds !! mp4_name v)
  ∧ ((∀ j, j ∈ X → j ∉ R → is_Some (phone_dir ds !! mp4_name j) → new_index R j ≠ v) →
     phone_dir ds' !! mp4_name v = phone_dir ds !! mp4_name v).
Proof.
  intros Hds HvX Hveps Hrun R.
  destruct (run_tabular_inv ds episodes_to_remove X Hds ds' Hrun) as [(_ & -> & ->) _].
  fold R. set (survivors := Py.sorted (elements (X ∖ list_to_set R))).
  assert (v ∉ R) as HvR by (unfold R; by rewrite elem_of_sorted_set).
  assert (∀ i, i ∈ survivors ↔ i ∈ X ∧ i ∉ R) as Hin by apply elem_of_survivors.
  assert (v ∉ survivors) as Hvs by (by intros [? _]%Hin).
  assert (∀ d : gmap string payload,
            unlink_pass mp4_name R d !! mp4_name v = d !! mp4_name v) as Hunlink.
  { intros d. rewrite lookup_unlink_pass_name by apply _. by rewrite decide_False. }
  assert (∀ d : gmap string payload,
            (∀ j, j ∈ X → j ∉ R → is_Some (d !! mp4_name j) → new_index R j ≠ v) →
            rename_pass mp4_name R survivors (unlink_pass mp4_name R d) !! mp4_name v
            = d !! mp4_name v) as Hkeep.
  { intros d Hd.
    rewrite (lookup_rename_pass_other mp4_name R survivors).
    - rewrite decide_False; [apply Hunlink|].
      by intros (j & ->%(inj mp4_name) & Hj)%list_elem_of_fmap.
    - apply all_indices_sorted.
    - intros j [HjX HjR]%Hin Hj ?%(inj mp4_name).
      rewrite lookup_unlink_pass_name, decide_False in Hj by (done || apply _).
      by apply (Hd j). }
  repeat split; try apply Hkeep; intros Hv;
    apply rename_pass_unlisted_stays; try apply _; try done; by rewrite Hunlink.
Qed.

Lemma orphan_video_kept_unless_renamed_onto_witness :
  let ds := sample_orphan in
  let ds' := outcome ds [3] in
  remove_and_reindex ds [3] = Ok ds'
  ∧ is_Some (laptop_dir ds' !! mp4_name 2)
  ∧ laptop_dir ds' !! mp4_name 2 = laptop_dir ds !! mp4_name 2.
Proof.
  intros ds ds'.
  assert (remove_and_reindex ds [3] = Ok ds') as Hrun by (vm_compute; reflexivity).
  split; [exact Hrun|].
  destruct (orphan_video_kept_unless_renamed_onto ds ds' [3] (list_to_set [0; 1; 3]) 2)
    as (Hstays & _ & Hkeeps & _).
  - apply (sample_tabular [0; 1; 3]).
  - rewrite elem_of_list_to_set, !elem_of_cons, elem_of_nil. lia.
  - rewrite !elem_of_cons, elem_of_nil. lia.
  - exact Hrun.
  - split; [apply Hstays; by eexists|]. apply Hkeeps.
    intros j HX Hj _. change (Py.sorted_set [3]) with [3] in *.
    rewrite elem_of_list_to_set, !elem_of_cons, elem_of_nil in HX.
    rewrite !elem_of_cons, elem_of_nil in Hj. unfold new_index.
    rewrite decrement_cons, decrement_nil. case_decide; lia.
Defined.

(** * Further properties of the code *)

(** ** File names *)

Lemma fnmatch_literal (c : ascii) (pat s : string) :
  c ≠ "*"%char →
  Py.fnmatch (String c pat) s
  = match s with
    | String d s' => Ascii.eqb c d && Py.fnmatch pat s'
    | EmptyString => false
    end.
Proof.
  intros Hc. destruct c as [[] [] [] [] [] [] [] []]; try reflexivity. by destruct Hc.
Qed.

Lemma fnmatch_literal_true (c : ascii) (pat s : string) :
  c ≠ "*"%char → Py.fnmatch (String c pat) s = true →
  ∃ s', s = String c s' ∧ Py.fnmatch pat s' = true.
Proof.
  intros Hc. rewrite fnmatch_literal by done. destruct s as [|d s']; [done|].
  intros [->%Ascii.eqb_eq H]%andb_true_iff. eauto.
Qed.

Lemma fnmatch_episode_prefix (name : string) :
  Py.fnmatch "episode_*.parquet" name = true → ∃ rest, name = "episode_" +:+ rest.
Proof.
  intros H.
  do 8 (apply fnmatch_literal_true in H as (? & -> & H); [|done]).
  by eexists.
Qed.

Lemma split_nonempty (sep : ascii) (s : string) : ∃ h t, Py.split sep s = h :: t.
Proof.
  induction s as [|c s (h & t & IH)]; cbn [Py.split]; [by eexists _, _|].
  destruct (Ascii.eqb c sep); [by eexists _, _|]. rewrite IH. by eexists _, _.
Qed.

Lemma unsigned_cases (s : string) :
  (∃ z, Py.unsigned s = Ok z) ∨ Py.unsigned s = Raise ValueError.
Proof.
  unfold Py.unsigned. destruct s as [|c s]; [by right|].
  destruct (NilEmpty.uint_of_string _); [left; by eexists|by right].
Qed.

Lemma int_cases (s : string) : (∃ z, Py.int s = Ok z) ∨ Py.int s = Raise ValueError.
Proof.
  destruct s as [|c s]; [by right|].
  destruct c as [[] [] [] [] [] [] [] []];
    try apply (unsigned_cases (String _ s));
    cbn [Py.int]; destruct (unsigned_cases s) as [[z ->]| ->];
    cbn [bind]; (left; by eexists) || by right.
Qed.

Lemma parse_index_matched (name : string) :
  Py.fnmatch "episode_*.parquet" name = true →
  (∃ z, parse_index name = Ok z) ∨ parse_index name = Raise ValueError.
Proof.
  intros (rest & ->)%fnmatch_episode_prefix. unfold parse_index.
  change (Py.split "_" ("episode_" +:+ rest)) with ("episode" :: Py.split "_" rest).
  destruct (split_nonempty "_" rest) as (a & t & ->).
  destruct (split_nonempty "." a) as (b & t' & Hb).
  cbn [Py.index lookup list_lookup bind]. rewrite Hb. cbn [lookup list_lookup bind].
  apply int_cases.
Qed.

Lemma traverse_cases {A B : Type} (f : A → result B) (l : list A) (e0 : exn) :
  Forall (λ x, (∃ y, f x = Ok y) ∨ f x = Raise e0) l →
  (∃ r, traverse f l = Ok r) ∨ traverse f l = Raise e0.
Proof.
  induction 1 as [|x l [[y Hy]|Hx] _ [[r IH]|IH]]; cbn [traverse].
  - left. by eexists.
  - rewrite Hy, IH. left. by eexists.
  - rewrite Hy, IH. by right.
  - rewrite Hx. by right.
  - rewrite Hx. by right.
Qed.

Lemma traverse_Raise {A B : Type} (f : A → result B) (l : list A) (x : A) (e : exn) :
  x ∈ l → f x = Raise e → ∃ e', traverse f l = Raise e'.
Proof.
  intros Hx Hf. induction l as [|a l IH]; [by apply elem_of_nil in Hx|].
  cbn [traverse]. destruct (f a) as [y|e1] eqn:Ha; [|by eexists].
  apply elem_of_cons in Hx as [->|Hx]; [congruence|].
  destruct (IH Hx) as [e' ->]. by eexists.
Qed.

Lemma all_indices_cases (d : gmap string payload) :
  (∃ l, all_indices d = Ok l) ∨ all_indices d = Raise ValueError.
Proof.
  unfold all_indices.
  destruct (traverse_cases parse_index (glob "episode_*.parquet" d) ValueError)
    as [[r ->]| ->]; [|left; by eexists|by right].
  apply Forall_forall. intros name [Hm _]%list_elem_of_filter.
  by apply parse_index_matched.
Qed.

(** X1. The name written for an index reads back as that index, for every
    integer, negative or of more than six digits: the name matches the
    pattern of the listing, line 42 parses the index out of it, and two
    indices never share a tabular or a video file name. *)
Theorem file_name_round_trip (z : Z) :
  Py.fnmatch "episode_*.parquet" (parquet_name z) = true
  ∧ parse_index (parquet_name z) = Ok z
  ∧ (∀ z', parquet_name z = parquet_name z' → z = z')
  ∧ (∀ z', mp4_name z = mp4_name z' → z = z').
Proof.
  split; [apply fnmatch_parquet_name|]. split; [apply parse_index_parquet|].
  split; intros z'; apply (inj _).
Qed.

(** X2. The listing of lines 42-43 can only raise [ValueError]: a name that
    matches [episode_*.parquet] always has a second piece between
    underscores and a first piece before a dot, so neither subscript raises
    [IndexError]; only [int] can fail. *)
Theorem listing_raises_only_ValueError (d : gmap string payload) :
  (∀ name, Py.fnmatch "episode_*.parquet" name = true →
           (∃ z, parse_index name = Ok z) ∨ parse_index name = Raise ValueError)
  ∧ ((∃ l, all_indices d = Ok l) ∨ all_indices d = Raise ValueError).
Proof. split; [apply parse_index_matched|apply all_indices_cases]. Qed.

(** ** The decrement and the new index *)

Lemma decrement_zero_iff (eps : list Z) (idx : Z) :
  decrement eps idx = 0 ↔ ∀ r, r ∈ eps → idx ≤ r.
Proof.
  split; [|apply decrement_none_below].
  induction eps as [|r eps IH]; [by intros _ ? ?%elem_of_nil|].
  rewrite decrement_cons. pose proof (decrement_nonneg eps idx).
  case_decide; [lia|]. intros Hd r' [->|Hr']%elem_of_cons; [lia|].
  apply IH; [lia|done].
Qed.

(** X3. The decrement of lines 48 and 75 lies between 0 and the length of
    the removal list, so a new index never exceeds the old one; and the
    guard of line 50 lets an episode be renamed exactly when some index of
    the removal list is below it. *)
Theorem decrement_bounds (episodes_to_remove : list Z) (idx : Z) :
  0 ≤ decrement episodes_to_remove idx ≤ Z.of_nat (length episodes_to_remove)
  ∧ new_index episodes_to_remove idx ≤ idx
  ∧ (new_index episodes_to_remove idx = idx ↔ ∀ r, r ∈ episodes_to_remove → idx ≤ r).
Proof.
  split; [|split].
  - rewrite decrement_length.
    pose proof (length_filter (λ r, r < idx) episodes_to_remove). lia.
  - apply new_index_le.
  - rewrite <- decrement_zero_iff. unfold new_index. lia.
Qed.

(** X4. On the removal list as line 22 leaves it, the renumbering keeps the
    order of the episodes: a larger index never gets a smaller new index,
    and an index that is not removed stays strictly below every larger
    one. *)
Theorem renumbering_keeps_order (episodes_to_remove : list Z) (i j : Z) :
  i ≤ j →
  let R := Py.sorted_set episodes_to_remove in
  new_index R i ≤ new_index R j
  ∧ (i < j → i ∉ episodes_to_remove → new_index R i < new_index R j).
Proof.
  intros Hij R. split.
  - by apply new_index_mono; [apply NoDup_sorted_set|].
  - intros Hlt Hi. apply new_index_strict_mono; [apply NoDup_sorted_set| |done].
    unfold R. by rewrite elem_of_sorted_set.
Qed.

Lemma renumbering_keeps_order_witness :
  2 ≤ 4
  ∧ new_index (Py.sorted_set [3; 1; 3]) 2 ≤ new_index (Py.sorted_set [3; 1; 3]) 4
  ∧ (2 < 4 → 2 ∉ [3; 1; 3] →
     new_index (Py.sorted_set [3; 1; 3]) 2 < new_index (Py.sorted_set [3; 1; 3]) 4).
Proof. split; [lia|]. apply (renumbering_keeps_order [3; 1; 3] 2 4). lia. Defined.

(** ** The removal loop *)


(** ** The run with the files it leaves behind *)

Lemma for_each_until_agree {S A : Type} (body : S → A → result S) (l : list A) (s : S) :
  for_each body l s
  = match for_each_until body l s with
    | (s', None) => Ok s'
    | (_, Some e) => Raise e
    end.
Proof.
  revert s. induction l as [|x l IH]; intros s; [done|].
  cbn [for_each for_each_until]. destruct (body s x) as [s'|e]; cbn [bind]; [apply IH|done].
Qed.

(** The two embeddings of the run agree. *)
Lemma on_disk_agree (ds : dataset) (episodes_to_remove : list Z) :
  remove_and_reindex ds episodes_to_remove
  = match remove_and_reindex_on_disk ds episodes_to_remove with
    | (ds', None) => Ok ds'
    | (_, Some e) => Raise e
    end.
Proof.
  unfold remove_and_reindex, remove_and_reindex_on_disk.
  destruct (all_indices _) as [indices|e]; cbn [bind]; [|done].
  rewrite for_each_until_agree.
  destruct (for_each_until _ _ _) as [st [e|]]; cbn [bind]; [done|].
  destruct (rewrite_stream _ _ (episodes_jsonl _)) as [episodes|e]; cbn [bind]; [|done].
  cbn [with_episodes episodes_stats_jsonl].
  destruct (rewrite_stream _ _ (episodes_stats_jsonl _)) as [stats|e]; cbn [bind]; [|done].
  cbn [with_stats info_json].
  by destruct (update_info _ _) as [info|e]; cbn [bind].
Qed.

Lemma on_disk_Ok (ds : dataset) (episodes_to_remove : list Z) (ds' : dataset) :
  remove_and_reindex ds episodes_to_remove = Ok ds' ↔
  remove_and_reindex_on_disk ds episodes_to_remove = (ds', None).
Proof.
  rewrite on_disk_agree.
  destruct (remove_and_reindex_on_disk ds episodes_to_remove) as [ds'' [e|]];
    split; intros [= ->] || intros [=]; done.
Qed.

Lemma on_disk_Raise (ds : dataset) (episodes_to_remove : list Z) (e : exn) :
  remove_and_reindex ds episodes_to_remove = Raise e ↔
  ∃ ds', remove_and_reindex_on_disk ds episodes_to_remove = (ds', Some e).
Proof.
  rewrite on_disk_agree.
  destruct (remove_and_reindex_on_disk ds episodes_to_remove) as [ds'' [e'|]]; split.
  - intros [= ->]. by eexists.
  - by intros (? & [= -> ->]).
  - done.
  - by intros (? & [=]).
Qed.

(** The renaming loop, wherever it stops: the indices of a prefix of the
    listing have been taken, all of them when nothing is raised. *)
Lemma reindex_until_inv eps l ds index_map st raised :
  for_each_until (reindex_step eps) l (ds, index_map) = (st, raised) →
  ∃ l1 l2, l = l1 ++ l2 ∧ (raised = None → l2 = [])
    ∧ data_dir st.1 = rename_pass parquet_name eps l1 (data_dir ds)
    ∧ laptop_dir st.1 = rename_pass mp4_name eps l1 (laptop_dir ds)
    ∧ phone_dir st.1 = rename_pass mp4_name eps l1 (phone_dir ds)
    ∧ episodes_jsonl st.1 = episodes_jsonl ds
    ∧ episodes_stats_jsonl st.1 = episodes_stats_jsonl ds
    ∧ info_json st.1 = info_json ds.
Proof.
  revert ds index_map. induction l as [|a l IH]; intros ds index_map.
  { intros [= <- <-]. by exists [], []. }
  cbn [for_each_until].
  destruct (decide (new_index eps a ≠ a)) as [Hmv|Hmv].
  - destruct (data_dir ds !! parquet_name a) as [c|] eqn:Hc.
    + rewrite (reindex_step_moved eps ds index_map a c) by done.
      intros (l1 & l2 & -> & Hnone & Hd & Hl & Hp & He & Hs & Hi)%IH.
      cbn [data_dir laptop_dir phone_dir episodes_jsonl episodes_stats_jsonl info_json] in *.
      exists (a :: l1), l2. rewrite !rename_pass_cons, !decide_True by done.
      by repeat split.
    + rewrite reindex_step_missing by done. intros [= <- <-].
      exists [], (a :: l). by repeat split.
  - apply dec_stable in Hmv. rewrite reindex_step_kept by done.
    intros (l1 & l2 & -> & Hnone & Hd & Hl & Hp & He & Hs & Hi)%IH.
    exists (a :: l1), l2. rewrite !rename_pass_cons, !decide_False by (by intros []).
    by repeat split.
Qed.

(** The three directories when the run returns or raises. *)
Lemma on_disk_files (ds : dataset) (episodes_to_remove : list Z) :
  ∃ l1, files_after (Py.sorted_set episodes_to_remove) l1 ds
          (remove_and_reindex_on_disk ds episodes_to_remove).1.
Proof.
  unfold remove_and_reindex_on_disk. rewrite remove_files_loop. cbn [data_dir].
  destruct (all_indices _) as [indices|e].
  2:{ exists []. by repeat split. }
  destruct (for_each_until _ _ _) as [st raised] eqn:Hloop.
  apply reindex_until_inv in Hloop as (l1 & l2 & _ & _ & Hd & Hl & Hp & _).
  cbn [data_dir laptop_dir phone_dir] in Hd, Hl, Hp.
  exists l1.
  destruct raised as [e|]; [by repeat split|].
  destruct (rewrite_stream _ _ (episodes_jsonl _)); [|by repeat split].
  destruct (rewrite_stream _ _ (episodes_stats_jsonl _)); [|by repeat split].
  by destruct (update_info _ _); repeat split.
Qed.

Section foreign.

Context (name : Z → string) (eps : list Z).

Lemma lookup_unlink_pass_foreign (d : gmap string payload) k :
  foreign_name name k → unlink_pass name eps d !! k = d !! k.
Proof.
  intros Hk. rewrite lookup_unlink_pass. rewrite decide_False; [done|].
  intros (i & -> & _)%list_elem_of_fmap. by apply (Hk i).
Qed.

Lemma lookup_rename_pass_foreign l (d : gmap string payload) k :
  foreign_name name k → rename_pass name eps l d !! k = d !! k.
Proof.
  intros Hk. revert d. induction l as [|a l IH]; intros d; [done|].
  rewrite rename_pass_cons, IH. case_decide; [|done].
  unfold rename_if_exists. destruct (d !! name a); [|done].
  rewrite lookup_insert_ne by (apply not_eq_sym, Hk).
  by rewrite lookup_delete_ne by (apply not_eq_sym, Hk).
Qed.

End foreign.

(** X6. A file whose name is not the name that lines 31, 36, 52-53 and
    58-59 write for some index is never deleted, renamed or overwritten,
    whether the run returns or raises: it is in its directory, with its
    content, in the dataset the run leaves behind. *)
Theorem foreign_files_untouched (ds : dataset) (episodes_to_remove : list Z) (k : string) :
  let ds' := (remove_and_reindex_on_disk ds episodes_to_remove).1 in
  (foreign_name parquet_name k → data_dir ds' !! k = data_dir ds !! k)
  ∧ (foreign_name mp4_name k →
     laptop_dir ds' !! k = laptop_dir ds !! k ∧ phone_dir ds' !! k = phone_dir ds !! k).
Proof.
  intros ds'. destruct (on_disk_files ds episodes_to_remove) as (l1 & Hd & Hl & Hp).
  fold ds' in Hd, Hl, Hp. rewrite Hd, Hl, Hp. split; intros Hk; [|split];
    by rewrite lookup_rename_pass_foreign, lookup_unlink_pass_foreign.
Qed.

Lemma foreign_files_untouched_witness :
  foreign_name parquet_name "README.md"
  ∧ data_dir (remove_and_reindex_on_disk (sample [0; 1; 2]) [1]).1 !! "README.md"
    = data_dir (sample [0; 1; 2]) !! "README.md".
Proof.
  assert (foreign_name parquet_name "README.md") as H by (intros i; discriminate).
  split; [exact H|].
  exact (proj1 (foreign_files_untouched (sample [0; 1; 2]) [1] "README.md") H).
Defined.

(** ** Runs on canonical file names *)

(** X7. On a dataset whose tabular files are those of an index set, a run
    that completes keeps the content of every episode that is not removed:
    its tabular file and its videos, when there are any, are found under its
    new index. *)
Theorem survivors_keep_their_content (ds ds' : dataset) (episodes_to_remove : list Z)
    (X : gset Z) (i : Z) :
  tabular (data_dir ds) X →
  remove_and_reindex ds episodes_to_remove = Ok ds' →
  i ∈ X → i ∉ episodes_to_remove →
  let n := new_index (Py.sorted_set episodes_to_remove) i in
  is_Some (data_dir ds' !! parquet_name n)
  ∧ data_dir ds' !! parquet_name n = data_dir ds !! parquet_name i
  ∧ (∀ c, laptop_dir ds !! mp4_name i = Some c → laptop_dir ds' !! mp4_name n = Some c)
  ∧ (∀ c, phone_dir ds !! mp4_name i = Some c → phone_dir ds' !! mp4_name n = Some c).
Proof.
  intros Hds Hrun HX Hi n.
  assert (i ∉ Py.sorted_set episodes_to_remove) as HR by by rewrite elem_of_sorted_set.
  pose proof (run_tabular_data_lookup ds episodes_to_remove X Hds ds' i Hrun HX HR) as Hd.
  fold n in Hd. rewrite Hd. split; [by apply (tabular_lookup _ X)|]. split; [done|].
  apply (run_tabular_video_lookup ds episodes_to_remove X Hds ds' i Hrun HX HR).
Qed.

Lemma survivors_keep_their_content_witness :
  let ds := sample [0; 1; 2; 3; 4] in
  let ds' := outcome ds [1; 3] in
  remove_and_reindex ds [1; 3] = Ok ds'
  ∧ data_dir ds' !! parquet_name 2 = data_dir ds !! parquet_name 4.
Proof.
  intros ds ds'.
  assert (remove_and_reindex ds [1; 3] = Ok ds') as Hrun by (vm_compute; reflexivity).
  split; [exact Hrun|].
  refine (proj1 (proj2 (survivors_keep_their_content ds ds' [1; 3]
                          (list_to_set [0; 1; 2; 3; 4]) 4 _ Hrun _ _))).
  - apply sample_tabular.
  - rewrite elem_of_list_to_set, !elem_of_cons. auto 10.
  - rewrite !elem_of_cons, elem_of_nil. lia.
Defined.

Lemma tabular_ext (d : gmap string payload) (X Y : gset Z) :
  (∀ i, i ∈ X ↔ i ∈ Y) → tabular d X → tabular d Y.
Proof. intros HXY Hd. by replace Y with X by by apply set_eq. Qed.

Lemma tabular_size (d : gmap string payload) (X : gset Z) :
  tabular d X → size (dom d) = size X.
Proof.
  intros Hd. unfold size, set_size. cbn.
  rewrite <- (length_fmap parquet_name (elements X)).
  apply Permutation_length, NoDup_Permutation.
  - apply NoDup_elements.
  - apply (NoDup_fmap_2 _), NoDup_elements.
  - intros k. rewrite elem_of_elements, elem_of_dom, (Hd k), list_elem_of_fmap.
    split; intros (i & ? & ?); exists i; by rewrite ?elem_of_elements in *.
Qed.

(** The index set after the run. *)
Lemma run_tabular_set (ds ds' : dataset) (episodes_to_remove : list Z) (X : gset Z) :
  tabular (data_dir ds) X →
  remove_and_reindex ds episodes_to_remove = Ok ds' →
  ∀ n, is_Some (data_dir ds' !! parquet_name n) ↔
       ∃ i, i ∈ X ∧ (i ∉ episodes_to_remove)
            ∧ n = new_index (Py.sorted_set episodes_to_remove) i.
Proof.
  intros Hds Hrun n.
  pose proof (run_tabular_data ds episodes_to_remove X Hds ds' Hrun) as Hd.
  rewrite (tabular_lookup _ _ n Hd), elem_of_list_to_set, list_elem_of_fmap.
  split; intros (i & H1 & H2); exists i.
  - apply elem_of_survivors in H2 as [? H2]. by rewrite elem_of_sorted_set in H2.
  - destruct H2 as [H2 ->]. split; [done|]. apply elem_of_survivors.
    by rewrite elem_of_sorted_set.
Qed.

(** X8. When every video belongs to an episode with a tabular file, it is
    still so after a run that completes: the videos of the removed episodes
    are gone, and every video that is left carries the new index of a
    surviving episode, whose tabular file is there. *)
Theorem videos_stay_with_their_episodes (ds ds' : dataset) (episodes_to_remove : list Z)
    (X : gset Z) :
  tabular (data_dir ds) X →
  remove_and_reindex ds episodes_to_remove = Ok ds' →
  (videos_of (laptop_dir ds) X →
   ∀ k, is_Some (laptop_dir ds' !! k) →
        ∃ n, k = mp4_name n ∧ is_Some (data_dir ds' !! parquet_name n))
  ∧ (videos_of (phone_dir ds) X →
     ∀ k, is_Some (phone_dir ds' !! k) →
          ∃ n, k = mp4_name n ∧ is_Some (data_dir ds' !! parquet_name n)).
Proof.
  intros Hds Hrun.
  pose proof (run_tabular_set ds ds' episodes_to_remove X Hds Hrun) as Hset.
  destruct (run_tabular_inv ds episodes_to_remove X Hds ds' Hrun) as [(_ & Hl & Hp) _].
  set (R := Py.sorted_set episodes_to_remove) in *.
  set (survivors := Py.sorted (elements (X ∖ list_to_set R))) in *.
  assert (∀ i, i ∈ survivors ↔ i ∈ X ∧ i ∉ R) as Hin by apply elem_of_survivors.
  assert (∀ d : gmap string payload, videos_of d X →
            ∀ k, is_Some (rename_pass mp4_name R survivors (unlink_pass mp4_name R d) !! k) →
                 ∃ n, k = mp4_name n ∧ is_Some (data_dir ds' !! parquet_name n)) as Hgen.
  { intros d Hd k Hk.
    destruct (decide (k ∈ mp4_name <$> (new_index R <$> survivors))) as [Hnew|Hnew].
    - apply list_elem_of_fmap in Hnew as (n & -> & (i & -> & [HX HR]%Hin)%list_elem_of_fmap).
      exists (new_index R i). split; [done|]. apply Hset. exists i.
      unfold R in HR. by rewrite elem_of_sorted_set in HR.
    - exfalso.
      rewrite (lookup_rename_pass_other mp4_name R survivors) in Hk;
        [|apply all_indices_sorted|].
      + case_decide as Hold; [by destruct Hk|]. apply Hold.
        rewrite lookup_unlink_pass in Hk. case_decide as Hrm; [by destruct Hk|].
        destruct (Hd k Hk) as (i & HX & ->). apply list_elem_of_fmap_2, Hin.
        split; [done|]. intros HR. by apply Hrm, list_elem_of_fmap_2.
      + intros i Hi _ ->. by apply Hnew, list_elem_of_fmap_2, list_elem_of_fmap_2. }
  split; intros Hv k; [rewrite Hl|rewrite Hp]; by apply Hgen.
Qed.

Lemma sample_videos_of (indices : list Z) :
  videos_of (laptop_dir (sample indices)) (list_to_set indices)
  ∧ videos_of (phone_dir (sample indices)) (list_to_set indices).
Proof.
  split; intros k; rewrite <- elem_of_dom; cbn [sample laptop_dir phone_dir];
    rewrite dom_list_to_map_L, elem_of_list_to_set, <- list_fmap_compose, list_elem_of_fmap;
    intros (i & Hi & Hk); exists i; by rewrite elem_of_list_to_set.
Qed.

Lemma videos_stay_with_their_episodes_witness :
  let ds := sample [0; 1; 2; 3; 4] in
  let ds' := outcome ds [1; 3] in
  remove_and_reindex ds [1; 3] = Ok ds'
  ∧ ∀ k, is_Some (laptop_dir ds' !! k) →
         ∃ n, k = mp4_name n ∧ is_Some (data_dir ds' !! parquet_name n).
Proof.
  intros ds ds'.
  assert (remove_and_reindex ds [1; 3] = Ok ds') as Hrun by (vm_compute; reflexivity).
  split; [exact Hrun|].
  apply (proj1 (videos_stay_with_their_episodes ds ds' [1; 3] (list_to_set [0; 1; 2; 3; 4])
                  (sample_tabular _) Hrun)).
  apply sample_videos_of.
Defined.

(** ** The metadata *)

Lemma traverse_app {A B : Type} (f : A → result B) (l1 l2 : list A) :
  traverse f (l1 ++ l2)
  = (r1 ← traverse f l1 ;;; r2 ← traverse f l2 ;;; Ok (r1 ++ r2)).
Proof.
  induction l1 as [|x l1 IH]; cbn [traverse app bind].
  - by destruct (traverse f l2).
  - destruct (f x); cbn [bind]; [|done]. rewrite IH.
    destruct (traverse f l1); cbn [bind]; [|done]. by destruct (traverse f l2).
Qed.

Lemma entry_index_dict_set (d : list (string * json)) (n : Z) :
  entry_index (Encoded (JObj (dict_set "episode_index" (JInt n) d))) = Ok n.
Proof.
  apply entry_index_Ok. eexists _, _. split; [done|].
  by rewrite dict_get_set, decide_True.
Qed.

Lemma dict_set_id (k : string) (v : json) (d : list (string * json)) :
  dict_get k d = Some v → dict_set k v d = d.
Proof.
  induction d as [|[k0 v0] d IH]; cbn [dict_get dict_set]; [done|].
  destruct (String.eqb_spec k k0) as [->|?]; [by intros [= ->]|].
  intros H. by rewrite IH.
Qed.

(** The indices of the records that the loop of lines 69-77 keeps. *)
Lemma rewrite_loop_indices (R : gset Z) (eps : list Z) content lines out idxs0 :
  for_each (rewrite_line R eps) content lines = Ok out →
  traverse entry_index (Encoded <$> lines) = Ok idxs0 →
  ∃ idxs, traverse entry_index content = Ok idxs
    ∧ traverse entry_index (Encoded <$> out)
      = Ok (idxs0 ++ (new_index eps <$> filter (λ z, z ∉ R) idxs)).
Proof.
  revert lines idxs0. induction content as [|line content IH]; intros lines idxs0.
  { intros [= <-] H0. exists []. by rewrite H0, app_nil_r. }
  cbn [for_each traverse]. intros (lines' & Hline & Hrest)%bind_Ok H0.
  destruct (entry_index line) as [z|e] eqn:Ez.
  2:{ by rewrite (rewrite_line_Raise _ _ _ _ e) in Hline. }
  cbn [bind]. destruct (decide (z ∈ R)) as [Hin|Hnin].
  - rewrite (rewrite_line_removed _ _ _ _ z) in Hline by done. injection Hline as <-.
    destruct (IH _ _ Hrest H0) as (idxs & -> & ->). exists (z :: idxs).
    split; [done|]. by rewrite filter_cons_False by (by intros []).
  - pose proof Ez as (d & v & -> & Hv & Hz)%entry_index_Ok.
    rewrite (rewrite_line_kept _ _ _ d v z) in Hline by done. injection Hline as <-.
    destruct (IH _ (idxs0 ++ [new_index eps z]) Hrest) as (idxs & -> & ->).
    { rewrite fmap_app, traverse_app, H0. cbn [bind fmap list_fmap traverse].
      by rewrite entry_index_dict_set. }
    exists (z :: idxs). split; [done|].
    by rewrite filter_cons_True, fmap_cons, <- app_assoc by done.
Qed.

Lemma rewrite_stream_indices (R : gset Z) (eps : list Z) file file' :
  rewrite_stream R eps file = Ok file' →
  ∃ idxs, stream_indices file = Ok idxs
    ∧ stream_indices file' = Ok (new_index eps <$> filter (λ z, z ∉ R) idxs).
Proof.
  destruct file as [content|]; [|done]. cbn [rewrite_stream].
  intros (out & Hout & [= <-])%bind_Ok.
  destruct (rewrite_loop_indices R eps content [] out [] Hout) as (idxs & H1 & H2); [done|].
  exists idxs. by split.
Qed.

Lemma rewrite_stream_Ok_inv (R : gset Z) (eps : list Z) file file' :
  rewrite_stream R eps file = Ok file' →
  ∃ content, file = Some content
    ∧ Forall (λ line, ∃ z, entry_index line = Ok z) content.
Proof.
  destruct file as [content|]; [|done]. cbn [rewrite_stream].
  intros (out & Hout & _)%bind_Ok. exists content. split; [done|].
  revert Hout. generalize (@nil json). induction content as [|line content IH]; [done|].
  intros lines. cbn [for_each]. intros (lines' & Hline & Hrest)%bind_Ok.
  constructor; [|by eapply IH].
  destruct (entry_index line) as [z|e] eqn:Ez; [by eexists|].
  by rewrite (rewrite_line_Raise _ _ _ _ e) in Hline.
Qed.

(** The loop of lines 69-77 raises what its first unreadable line raises. *)
Lemma rewrite_loop_Raise (R : gset Z) (eps : list Z) good bad rest lines e :
  Forall (λ line, ∃ z, entry_index line = Ok z) good →
  entry_index bad = Raise e →
  for_each (rewrite_line R eps) (good ++ bad :: rest) lines = Raise e.
Proof.
  intros Hgood Hbad. revert lines.
  induction Hgood as [|line good [z Hz] _ IH]; intros lines; cbn [app for_each].
  - by rewrite (rewrite_line_Raise _ _ _ _ e).
  - destruct (decide (z ∈ R)).
    + rewrite (rewrite_line_removed _ _ _ _ z) by done. apply IH.
    + pose proof Hz as (d & v & -> & Hv & Hz')%entry_index_Ok.
      rewrite (rewrite_line_kept _ _ _ d v z) by done. apply IH.
Qed.

(** The renaming loop on an empty removal list. *)
Lemma reindex_loop_nil l ds index_map :
  ∃ index_map', for_each (reindex_step []) l (ds, index_map) = Ok (ds, index_map').
Proof.
  revert index_map. induction l as [|a l IH]; intros index_map; [by eexists|].
  cbn [for_each]. rewrite reindex_step_kept by (unfold new_index; rewrite decrement_nil; lia).
  apply IH.
Qed.

Lemma rewrite_loop_nil content lines :
  Forall integer_indexed content →
  ∃ out, for_each (rewrite_line ∅ []) content lines = Ok (lines ++ out)
    ∧ Encoded <$> out = content.
Proof.
  intros Hc. revert lines.
  induction Hc as [|line content (d & z & -> & Hz) _ IH]; intros lines.
  { exists []. by rewrite app_nil_r. }
  cbn [for_each]. rewrite (rewrite_line_kept _ _ _ d (JInt z) z) by done.
  cbn [bind]. destruct (IH (lines ++ [JObj (dict_set "episode_index"
                                     (JInt (new_index [] z)) d)])) as (out & -> & <-).
  eexists (_ :: out). split; [by rewrite <- app_assoc|].
  rewrite fmap_cons. do 3 f_equal. apply dict_set_id.
  rewrite Hz. unfold new_index. rewrite decrement_nil. do 2 f_equal. lia.
Qed.

(** X9. An empty removal list makes the run a no-op: on a dataset whose
    listing parses and whose metadata carry integer indices and an integer
    counter, the run completes and every file is as before. *)
Theorem empty_removal_is_identity (ds : dataset) :
  (∃ l, all_indices (data_dir ds) = Ok l) →
  (∃ content, episodes_jsonl ds = Some content ∧ Forall integer_indexed content) →
  (∃ content, episodes_stats_jsonl ds = Some content ∧ Forall integer_indexed content) →
  (∃ d total, info_json ds = Some (Encoded (JObj d))
              ∧ dict_get "total_episodes" d = Some (JInt total)) →
  remove_and_reindex ds [] = Ok ds.
Proof.
  intros [l Hl] (c1 & E1 & H1) (c2 & E2 & H2) (d & total & Ei & Ht).
  unfold remove_and_reindex. change (Py.sorted_set []) with (@nil Z).
  cbn [foldl]. rewrite Hl. cbn [bind].
  destruct (reindex_loop_nil l ds ∅) as [im ->]. cbn [bind fst].
  change (list_to_set [] : gset Z) with (∅ : gset Z).
  rewrite E1, E2, Ei. cbn [rewrite_stream].
  destruct (rewrite_loop_nil c1 [] H1) as (o1 & -> & <-).
  destruct (rewrite_loop_nil c2 [] H2) as (o2 & -> & <-).
  cbn [bind update_info loads getitem]. rewrite Ht. cbn [bind as_int setitem length].
  rewrite Z.sub_0_r, dict_set_id by done.
  destruct ds; cbn in *. by rewrite E1, E2, Ei.
Qed.

Lemma sample_integer_indexed (indices : list Z) :
  Forall integer_indexed (episode_record <$> indices)
  ∧ Forall integer_indexed (stats_record <$> indices).
Proof.
  split; apply Forall_fmap, Forall_forall; intros i _; by eexists _, i.
Qed.

Lemma empty_removal_is_identity_witness :
  remove_and_reindex (sample [0; 1; 2]) [] = Ok (sample [0; 1; 2]).
Proof.
  apply (empty_removal_is_identity (sample [0; 1; 2])).
  - exists [0; 1; 2]. rewrite (all_indices_tabular _ _ (sample_tabular [0; 1; 2])).
    by vm_compute.
  - eexists. split; [done|]. apply sample_integer_indexed.
  - eexists. split; [done|]. apply sample_integer_indexed.
  - by eexists _, _.
Defined.

Lemma StronglySorted_lt_NoDup (l : list Z) : StronglySorted Z.lt l → NoDup l.
Proof.
  induction 1 as [|x l Hl IH Hx]; constructor; [|done].
  intros Hin. rewrite Forall_forall in Hx. specialize (Hx x Hin). lia.
Qed.

(** X10. A run that completes keeps [episodes.jsonl] and the data directory
    in step: when the records of the stream carry exactly the indices of
    the tabular files, they still do afterwards, each kept record under the
    new index of its episode, with no index twice if there was none
    twice. *)
Theorem records_stay_with_their_files (ds ds' : dataset) (episodes_to_remove : list Z)
    (X : gset Z) (idxs : list Z) :
  tabular (data_dir ds) X →
  stream_indices (episodes_jsonl ds) = Ok idxs →
  (∀ i, i ∈ idxs ↔ i ∈ X) →
  remove_and_reindex ds episodes_to_remove = Ok ds' →
  ∃ idxs', stream_indices (episodes_jsonl ds') = Ok idxs'
    ∧ idxs' = new_index (Py.sorted_set episodes_to_remove)
                <$> filter (λ z, z ∉ episodes_to_remove) idxs
    ∧ (∀ n, n ∈ idxs' ↔ is_Some (data_dir ds' !! parquet_name n))
    ∧ (NoDup idxs → NoDup idxs').
Proof.
  intros Hds Hidxs Hsame Hrun.
  pose proof (run_tabular_set ds ds' episodes_to_remove X Hds Hrun) as Hset.
  destruct (run_inv _ _ _ Hrun) as (l & _ & _ & He & _).
  apply rewrite_stream_indices in He as (idxs1 & H1 & H2).
  rewrite Hidxs in H1. injection H1 as <-.
  set (R := Py.sorted_set episodes_to_remove) in *.
  assert (filter (λ z, z ∉ (list_to_set R : gset Z)) idxs
          = filter (λ z, z ∉ episodes_to_remove) idxs) as Hf.
  { apply list_filter_iff. intros z. unfold R.
    by rewrite elem_of_list_to_set, elem_of_sorted_set. }
  rewrite Hf in H2. eexists. split; [done|]. split; [done|]. split.
  - intros n. rewrite Hset, list_elem_of_fmap. split.
    + intros (i & -> & [Hi Hin]%list_elem_of_filter). exists i. by rewrite <- Hsame.
    + intros (i & HX & Hi & ->). exists i. split; [done|].
      apply list_elem_of_filter. by rewrite Hsame.
  - intros Hnd. apply NoDup_fmap_2_strong; [|by apply NoDup_filter].
    intros i j [Hi _]%list_elem_of_filter [Hj _]%list_elem_of_filter.
    apply new_index_inj; [apply NoDup_sorted_set|..]; unfold R; by rewrite elem_of_sorted_set.
Qed.

Lemma records_stay_with_their_files_witness :
  let ds := sample [0; 1; 2; 3; 4] in
  let ds' := outcome ds [3; 1; 3] in
  remove_and_reindex ds [3; 1; 3] = Ok ds'
  ∧ ∃ idxs', stream_indices (episodes_jsonl ds') = Ok idxs'
      ∧ idxs' = new_index (Py.sorted_set [3; 1; 3])
                  <$> filter (λ z, z ∉ [3; 1; 3]) [0; 1; 2; 3; 4]
      ∧ (∀ n, n ∈ idxs' ↔ is_Some (data_dir ds' !! parquet_name n))
      ∧ (NoDup [0; 1; 2; 3; 4] → NoDup idxs').
Proof.
  intros ds ds'.
  assert (remove_and_reindex ds [3; 1; 3] = Ok ds') as Hrun by (vm_compute; reflexivity).
  split; [exact Hrun|].
  apply (records_stay_with_their_files ds ds' [3; 1; 3] (list_to_set [0; 1; 2; 3; 4])).
  - apply sample_tabular.
  - reflexivity.
  - intros i. by rewrite elem_of_list_to_set.
  - exact Hrun.
Defined.

(** X11. When every index of the removal list has a tabular file, the
    counter stays the number of tabular files: if [total_episodes] is the
    number of files of the data directory before the run, it is so after a
    run that completes. *)
Theorem counter_matches_files (ds ds' : dataset) (episodes_to_remove : list Z) (X : gset Z) :
  tabular (data_dir ds) X →
  (∀ r, r ∈ episodes_to_remove → r ∈ X) →
  total_episodes (info_json ds) = Ok (Z.of_nat (size (dom (data_dir ds)))) →
  remove_and_reindex ds episodes_to_remove = Ok ds' →
  total_episodes (info_json ds') = Ok (Z.of_nat (size (dom (data_dir ds')))).
Proof.
  intros Hds Hsub Ht Hrun.
  rewrite (run_total_episodes _ _ _ _ Hrun Ht). f_equal.
  pose proof (run_tabular_data ds episodes_to_remove X Hds ds' Hrun) as Hd'.
  rewrite (tabular_size _ _ Hds), (tabular_size _ _ Hd').
  set (R := Py.sorted_set episodes_to_remove) in *.
  rewrite (size_list_to_set (new_index R <$> _)).
  2:{ apply NoDup_fmap_2_strong.
      - intros i j [_ Hi]%elem_of_survivors [_ Hj]%elem_of_survivors.
        by apply new_index_inj; [apply NoDup_sorted_set|..].
      - eapply StronglySorted_lt_NoDup, all_indices_sorted. }
  rewrite length_fmap. unfold Py.sorted. rewrite merge_sort_Permutation.
  change (length (elements ?Y)) with (size Y).
  unfold R. rewrite list_to_set_sorted_set.
  rewrite size_difference.
  - assert (size (list_to_set episodes_to_remove : gset Z) ≤ size X)%nat; [|lia].
    apply subseteq_size. intros r Hr%elem_of_list_to_set. by apply Hsub.
  - intros r Hr%elem_of_list_to_set. by apply Hsub.
Qed.

(** ** Texts that are no numeral *)

Lemma uint_of_string_letter (s : string) :
  Exists (λ c, is_letter c = true) (list_ascii_of_string s) →
  NilEmpty.uint_of_string s = None.
Proof.
  induction s as [|c s IH]; cbn [list_ascii_of_string NilEmpty.uint_of_string].
  { by intros ?%Exists_nil. }
  intros [H|H]%Exists_cons.
  - destruct (NilEmpty.uint_of_string s) as [d|]; [|done].
    destruct c as [[] [] [] [] [] [] [] []]; vm_compute in H; try done.
  - by rewrite (IH H).
Qed.

Lemma unsigned_letter (s : string) :
  Exists (λ c, is_letter c = true) (list_ascii_of_string s) →
  Py.unsigned s = Raise ValueError.
Proof.
  intros H. unfold Py.unsigned. destruct s as [|c s]; [done|].
  by rewrite (uint_of_string_letter _ H).
Qed.

Lemma int_no_numeral (s : string) : no_numeral s → Py.int s = Raise ValueError.
Proof.
  intros [->|H]; [done|]. destruct s as [|c s]; [by apply Exists_nil in H|].
  pose proof (unsigned_letter _ H) as Hu.
  cbn [list_ascii_of_string] in H. apply Exists_cons in H.
  destruct c as [[] [] [] [] [] [] [] []]; try exact Hu;
    (destruct H as [H|H]; [by vm_compute in H|]);
    cbn [Py.int]; by rewrite (unsigned_letter _ H).
Qed.

Lemma counter_matches_files_witness :
  let ds := sample [0; 1; 2; 3; 4] in
  let ds' := outcome ds [3; 1; 3] in
  remove_and_reindex ds [3; 1; 3] = Ok ds'
  ∧ total_episodes (info_json ds') = Ok (Z.of_nat (size (dom (data_dir ds')))).
Proof.
  intros ds ds'.
  assert (remove_and_reindex ds [3; 1; 3] = Ok ds') as Hrun by (vm_compute; reflexivity).
  split; [exact Hrun|].
  apply (counter_matches_files ds ds' [3; 1; 3] (list_to_set [0; 1; 2; 3; 4])).
  - apply sample_tabular.
  - intros r Hr. rewrite elem_of_list_to_set. rewrite !elem_of_cons, elem_of_nil in *.
    intuition.
  - vm_compute; reflexivity.
  - exact Hrun.
Defined.

(** X12. The rewrite of [info.json] at lines 83-88 changes the counter and
    nothing else: after a run that completes, the document is an object with
    the same keys in the same order, and every field but [total_episodes]
    has the value it had. *)
Theorem info_keeps_other_fields (ds ds' : dataset) (episodes_to_remove : list Z) :
  remove_and_reindex ds episodes_to_remove = Ok ds' →
  ∃ d d', info_json ds = Some (Encoded (JObj d))
    ∧ info_json ds' = Some (Encoded (JObj d'))
    ∧ (∀ k, k ≠ "total_episodes" → dict_get k d' = dict_get k d)
    ∧ d'.*1 = d.*1.
Proof.
  intros (l & _ & _ & _ & _ & Hinfo)%run_inv.
  apply update_info_inv in Hinfo as (d & v & total & Hd & Hv & _ & Hd').
  exists d, (dict_set "total_episodes"
               (JInt (total - Z.of_nat (length (Py.sorted_set episodes_to_remove)))) d).
  repeat split; try done.
  - intros k Hk. by rewrite dict_get_set, decide_False.
  - apply dict_set_keys. by rewrite Hv.
Qed.

Lemma info_keeps_other_fields_witness :
  let ds := sample [0; 1; 2] in
  ∃ d d', info_json ds = Some (Encoded (JObj d))
    ∧ info_json (outcome ds [1]) = Some (Encoded (JObj d'))
    ∧ (∀ k, k ≠ "total_episodes" → dict_get k d' = dict_get k d)
    ∧ d'.*1 = d.*1.
Proof.
  apply (info_keeps_other_fields (sample [0; 1; 2]) (outcome (sample [0; 1; 2]) [1]) [1]).
  vm_compute; reflexivity.
Defined.

(** The run on canonical file names, with the files it leaves behind. *)
Lemma on_disk_tabular (ds : dataset) (episodes_to_remove : list Z) (X : gset Z) :
  tabular (data_dir ds) X →
  let R := Py.sorted_set episodes_to_remove in
  let survivors := Py.sorted (elements (X ∖ list_to_set R)) in
  let renamed :=
    {| data_dir := rename_pass parquet_name R survivors
                     (unlink_pass parquet_name R (data_dir ds));
       laptop_dir := rename_pass mp4_name R survivors
                       (unlink_pass mp4_name R (laptop_dir ds));
       phone_dir := rename_pass mp4_name R survivors
                      (unlink_pass mp4_name R (phone_dir ds));
       episodes_jsonl := episodes_jsonl ds;
       episodes_stats_jsonl := episodes_stats_jsonl ds;
       info_json := info_json ds |} in
  remove_and_reindex_on_disk ds episodes_to_remove =
  match rewrite_stream (list_to_set R) R (episodes_jsonl ds) with
  | Raise e => (renamed, Some e)
  | Ok episodes =>
      match rewrite_stream (list_to_set R) R (episodes_stats_jsonl ds) with
      | Raise e => (with_episodes renamed episodes, Some e)
      | Ok stats =>
          match update_info R (info_json ds) with
          | Raise e => (with_stats (with_episodes renamed episodes) stats, Some e)
          | Ok info => (with_info (with_stats (with_episodes renamed episodes) stats) info, None)
          end
      end
  end.
Proof.
  intros Hds R survivors renamed. unfold remove_and_reindex_on_disk. fold R.
  pose proof (tabular_unlink_pass R _ _ Hds) as Hd'.
  destruct (reindex_loop R survivors (foldl remove_files ds R) ∅) as [im Hloop].
  { apply all_indices_sorted. }
  { intros i Hi. rewrite remove_files_loop. cbn [data_dir].
    apply (tabular_lookup _ _ _ Hd'). by apply elem_of_sorted_elements in Hi. }
  pose proof (for_each_until_agree (reindex_step R) survivors
                (foldl remove_files ds R, ∅)) as Hagree.
  rewrite Hloop in Hagree.
  assert (all_indices (data_dir (foldl remove_files ds R)) = Ok survivors) as ->.
  { rewrite remove_files_loop. cbn [data_dir]. by rewrite (all_indices_tabular _ _ Hd'). }
  destruct (for_each_until _ _ _) as [st [e|]]; [done|].
  injection Hagree as <-. rewrite remove_files_loop.
  cbn [fst data_dir laptop_dir phone_dir episodes_jsonl episodes_stats_jsonl info_json].
  fold renamed. done.
Qed.

(** X14. A line of [episodes.jsonl] that cannot be read is found too late:
    on canonical file names, when the lines before it can be read and its
    own reading raises an exception of Python, the run raises that exception
    after the files of the removed episodes have been deleted and the others
    renumbered, and before any metadata file is written; the three metadata
    files are as before. *)
Theorem unreadable_line_found_after_renaming (ds : dataset) (episodes_to_remove : list Z)
    (X : gset Z) (good rest : list text) (bad : text) (e : exn) :
  tabular (data_dir ds) X →
  episodes_jsonl ds = Some (good ++ bad :: rest) →
  Forall (λ line, ∃ z, entry_index line = Ok z) good →
  entry_index bad = Raise e →
  e ≠ UnsupportedFloat →
  remove_and_reindex ds episodes_to_remove = Raise e
  ∧ ∃ ds', remove_and_reindex_on_disk ds episodes_to_remove = (ds', Some e)
      ∧ files_after (Py.sorted_set episodes_to_remove)
          (Py.sorted (elements (X ∖ list_to_set (Py.sorted_set episodes_to_remove)))) ds ds'
      ∧ episodes_jsonl ds' = episodes_jsonl ds
      ∧ episodes_stats_jsonl ds' = episodes_stats_jsonl ds
      ∧ info_json ds' = info_json ds.
Proof.
  intros Hds Hfile Hgood Hbad _.
  assert (∃ ds', remove_and_reindex_on_disk ds episodes_to_remove = (ds', Some e)
      ∧ files_after (Py.sorted_set episodes_to_remove)
          (Py.sorted (elements (X ∖ list_to_set (Py.sorted_set episodes_to_remove)))) ds ds'
      ∧ episodes_jsonl ds' = episodes_jsonl ds
      ∧ episodes_stats_jsonl ds' = episodes_stats_jsonl ds
      ∧ info_json ds' = info_json ds) as H.
  { rewrite (on_disk_tabular ds episodes_to_remove X Hds). cbv zeta.
    rewrite Hfile. cbn [rewrite_stream].
    rewrite (rewrite_loop_Raise _ _ good bad rest [] e Hgood Hbad). cbn [bind].
    eexists. split; [done|]. by repeat split. }
  split; [|done]. apply on_disk_Raise. destruct H as (ds' & H & _). by exists ds'.
Qed.

Lemma unreadable_line_found_after_renaming_witness :
  let ds := with_episodes (sample [0; 1; 2])
              (Some [episode_record 0; Encoded (JObj [("length", JInt 7)]); episode_record 2]) in
  remove_and_reindex ds [0] = Raise KeyError
  ∧ ∃ ds', remove_and_reindex_on_disk ds [0] = (ds', Some KeyError)
      ∧ files_after (Py.sorted_set [0])
          (Py.sorted (elements ((list_to_set [0; 1; 2] : gset Z)
                                ∖ list_to_set (Py.sorted_set [0])))) ds ds'
      ∧ episodes_jsonl ds' = episodes_jsonl ds
      ∧ episodes_stats_jsonl ds' = episodes_stats_jsonl ds
      ∧ info_json ds' = info_json ds.
Proof.
  intros ds.
  apply (unreadable_line_found_after_renaming ds [0] (list_to_set [0; 1; 2])
           [episode_record 0] [episode_record 2] (Encoded (JObj [("length", JInt 7)])) KeyError).
  - apply (sample_tabular [0; 1; 2]).
  - reflexivity.
  - repeat constructor. by exists 0.
  - reflexivity.
  - discriminate.
Defined.



(** X16. A file of the data directory whose name matches
    [episode_*.parquet] and has, where line 42 looks for the index, the
    empty text or a text with a letter in it stops the run at the listing,
    with [ValueError]: the removal loop has run by then, nothing has been
    renamed and no metadata file has been written. *)
Theorem stray_file_stops_the_run (ds : dataset) (episodes_to_remove : list Z)
    (k a piece : string) :
  is_Some (data_dir ds !! k) →
  Py.fnmatch "episode_*.parquet" k = true →
  Py.index (Py.split "_" k) 1 = Ok a →
  Py.index (Py.split "." a) 0 = Ok piece →
  no_numeral piece →
  remove_and_reindex ds episodes_to_remove = Raise ValueError
  ∧ remove_and_reindex_on_disk ds episodes_to_remove
    = (foldl remove_files ds (Py.sorted_set episodes_to_remove), Some ValueError).
Proof.
  intros Hk Hm Ha Hpiece Hno.
  assert (parse_index k = Raise ValueError) as Hp.
  { unfold parse_index. rewrite Ha. cbn [bind]. rewrite Hpiece. cbn [bind].
    by apply int_no_numeral. }
  assert (remove_and_reindex_on_disk ds episodes_to_remove
          = (foldl remove_files ds (Py.sorted_set episodes_to_remove), Some ValueError)) as H.
  { unfold remove_and_reindex_on_disk.
    destruct (all_indices_cases
                (data_dir (foldl remove_files ds (Py.sorted_set episodes_to_remove))))
      as [[l Hl]| ->]; [exfalso|done].
    unfold all_indices in Hl. apply bind_Ok in Hl as (r & Hr & _).
    destruct (traverse_Raise parse_index
                (glob "episode_*.parquet"
                   (data_dir (foldl remove_files ds (Py.sorted_set episodes_to_remove))))
                k ValueError) as [e' He']; [|done|congruence].
    apply list_elem_of_filter. split; [done|].
    rewrite elem_of_elements, elem_of_dom, remove_files_loop. cbn [data_dir].
    rewrite lookup_unlink_pass, decide_False; [done|].
    intros (r' & -> & _)%list_elem_of_fmap. by rewrite parse_index_parquet in Hp. }
  split; [|done]. apply on_disk_Raise. by eexists.
Qed.

Lemma stray_file_stops_the_run_witness :
  let ds := {| data_dir := <["episode_final.parquet" := "table"]> (data_dir (sample [0; 1; 2]));
               laptop_dir := laptop_dir (sample [0; 1; 2]);
               phone_dir := phone_dir (sample [0; 1; 2]);
               episodes_jsonl := episodes_jsonl (sample [0; 1; 2]);
               episodes_stats_jsonl := episodes_stats_jsonl (sample [0; 1; 2]);
               info_json := info_json (sample [0; 1; 2]) |} in
  remove_and_reindex ds [1] = Raise ValueError
  ∧ remove_and_reindex_on_disk ds [1]
    = (foldl remove_files ds (Py.sorted_set [1]), Some ValueError).
Proof.
  intros ds.
  apply (stray_file_stops_the_run ds [1] "episode_final.parquet" "final.parquet" "final").
  - cbn [data_dir ds]. rewrite lookup_insert_eq. by eexists.
  - reflexivity.
  - reflexivity.
  - reflexivity.
  - right. apply Exists_cons_hd. reflexivity.
Defined.

(** ** [backup_dir] and [main] *)

Lemma length_append (s1 s2 : string) :
  String.length (s1 +:+ s2) = (String.length s1 + String.length s2)%nat.
Proof.
  induction s1 as [|c s1 IH]; [done|].
  change (S (String.length (s1 +:+ s2)) = S (String.length s1 + String.length s2)).
  by rewrite IH.
Qed.

Lemma backup_path_ne (src_dir : string) : src_dir +:+ "_backup" ≠ src_dir.
Proof.
  intros H. apply (f_equal String.length) in H. rewrite length_append in H.
  cbn in H. lia.
Qed.

(** X17. [backup_dir] changes no directory that is there: the source and,
    above all, a backup left by an earlier call keep their content, so a
    backup that exists is never refreshed. A backup that was missing
    is a copy of the source; the path returned is the path of the source
    with [_backup] appended. *)
Theorem backup_dir_keeps_what_is_there (src_dir : string) (disk disk' : gmap string dataset)
    (backup_path : string) :
  backup_dir src_dir disk = Ok (disk', backup_path) →
  backup_path = src_dir +:+ "_backup"
  ∧ (∀ k, is_Some (disk !! k) → disk' !! k = disk !! k)
  ∧ (∀ k, k ≠ backup_path → disk' !! k = disk !! k)
  ∧ is_Some (disk' !! backup_path)
  ∧ (disk !! backup_path = None → disk' !! backup_path = disk !! src_dir).
Proof.
  unfold backup_dir.
  destruct (disk !! (src_dir +:+ "_backup")) as [old|] eqn:Hb.
  - intros [= <- <-]. rewrite Hb. repeat split; try done; by eexists.
  - destruct (disk !! src_dir) as [tree|] eqn:Hs; [|done].
    intros [= <- <-]. repeat split.
    + intros k [x Hk]. rewrite lookup_insert_ne; [done|]. intros <-. congruence.
    + intros k Hk. by rewrite lookup_insert_ne.
    + rewrite lookup_insert_eq. by eexists.
    + intros _. by rewrite lookup_insert_eq.
Qed.

Lemma backup_dir_keeps_what_is_there_witness :
  let disk : gmap string dataset :=
    {["/data/pick" := sample [0; 1]; "/data/pick_backup" := sample [0; 1; 2]]} in
  backup_dir "/data/pick" disk = Ok (disk, "/data/pick_backup")
  ∧ "/data/pick_backup" = "/data/pick" +:+ "_backup"
  ∧ (∀ k, is_Some (disk !! k) → disk !! k = disk !! k)
  ∧ (∀ k, k ≠ "/data/pick_backup" → disk !! k = disk !! k)
  ∧ is_Some (disk !! "/data/pick_backup")
  ∧ (disk !! "/data/pick_backup" = None → disk !! "/data/pick_backup" = disk !! "/data/pick").
Proof.
  intros disk.
  assert (backup_dir "/data/pick" disk = Ok (disk, "/data/pick_backup")) as H
    by (vm_compute; reflexivity).
  split; [exact H|].
  exact (backup_dir_keeps_what_is_there "/data/pick" disk disk "/data/pick_backup" H).
Defined.

(** X18. [backup_dir] is idempotent, and it raises only when neither the
    backup nor the source is there: a second call finds the backup of the
    first and changes nothing, and a backup that exists hides a source that
    is missing. *)
Theorem backup_dir_idempotent (src_dir : string) (disk : gmap string dataset) :
  (∀ disk' backup_path,
     backup_dir src_dir disk = Ok (disk', backup_path) →
     backup_dir src_dir disk' = Ok (disk', backup_path))
  ∧ (∀ e, backup_dir src_dir disk = Raise e ↔
          e = FileNotFoundError
          ∧ disk !! src_dir = None ∧ disk !! (src_dir +:+ "_backup") = None).
Proof.
  unfold backup_dir. split.
  - intros disk' backup_path.
    destruct (disk !! (src_dir +:+ "_backup")) as [old|] eqn:Hb.
    + intros [= <- <-]. by rewrite Hb.
    + destruct (disk !! src_dir) as [tree|] eqn:Hs; [|done].
      intros [= <- <-]. by rewrite lookup_insert_eq.
  - intros e. destruct (disk !! (src_dir +:+ "_backup")) as [old|] eqn:Hb.
    + split; [done|]. by intros (_ & _ & ?).
    + destruct (disk !! src_dir) as [tree|] eqn:Hs.
      * split; [done|]. by intros (_ & ? & _).
      * split; [by intros [= <-]|]. by intros (-> & _).
Qed.

Lemma backup_dir_idempotent_witness :
  let disk : gmap string dataset := {["/data/pick" := sample [0; 1]]} in
  let disk' : gmap string dataset :=
    {["/data/pick" := sample [0; 1]; "/data/pick_backup" := sample [0; 1]]} in
  backup_dir "/data/pick" disk = Ok (disk', "/data/pick_backup")
  ∧ backup_dir "/data/pick" disk' = Ok (disk', "/data/pick_backup").
Proof.
  intros disk disk'.
  assert (backup_dir "/data/pick" disk = Ok (disk', "/data/pick_backup")) as H
    by (vm_compute; reflexivity).
  split; [exact H|].
  exact (proj1 (backup_dir_idempotent "/data/pick" disk) disk' "/data/pick_backup" H).
Defined.

(** The run under a root that does not exist: the removal loop finds no
    file, the listing is empty, no file is renamed, and the opening of
    [episodes.jsonl] raises. *)
Lemma run_on_missing_root (episodes_to_remove : list Z) :
  remove_and_reindex_on_disk missing_root episodes_to_remove
  = (missing_root, Some FileNotFoundError).
Proof.
  unfold remove_and_reindex_on_disk. rewrite remove_files_loop.
  cbn [missing_root data_dir laptop_dir phone_dir episodes_jsonl episodes_stats_jsonl
         info_json].
  rewrite (unlink_pass_absent parquet_name) by (intros; apply lookup_empty).
  rewrite (unlink_pass_absent mp4_name) by (intros; apply lookup_empty).
  assert (all_indices (∅ : gmap string payload) = Ok []) as -> by (vm_compute; reflexivity).
  reflexivity.
Qed.

Section main_properties.

Context {Hub : Type} (upload_to_hub : dataset → string → Hub → Hub * option exn).
Context (root : string) (episodes : list Z) (new_repo_id : string).

(** The disk after the optional backup, when the root is there. *)
Lemma backup_step (backup : bool) (disk : gmap string dataset) (ds : dataset) :
  disk !! root = Some ds →
  ∃ disk1 p, (if backup then backup_dir root disk else Ok (disk, root)) = Ok (disk1, p)
    ∧ disk1 !! root = Some ds
    ∧ (∀ k, is_Some (disk !! k) → disk1 !! k = disk !! k)
    ∧ (∀ k, k ≠ root +:+ "_backup" → disk1 !! k = disk !! k)
    ∧ (backup = true → disk !! (root +:+ "_backup") = None →
       disk1 !! (root +:+ "_backup") = Some ds)
    ∧ (backup = false → disk1 = disk).
Proof.
  intros Hroot. destruct backup.
  - unfold backup_dir. destruct (disk !! (root +:+ "_backup")) as [old|] eqn:Hb.
    + exists disk, (root +:+ "_backup"). by repeat split.
    + rewrite Hroot. eexists _, _. split; [done|].
      pose proof (backup_path_ne root). repeat split; try done.
      * by rewrite lookup_insert_ne.
      * intros k [x Hk]. rewrite lookup_insert_ne; [done|]. intros <-. congruence.
      * intros k Hk. by rewrite lookup_insert_ne.
      * intros _ _. by rewrite lookup_insert_eq.
  - exists disk, root. by repeat split.
Qed.

(** The disk after the optional backup, when the root is not there. *)
Lemma backup_step_missing (backup : bool) (disk : gmap string dataset) :
  disk !! root = None →
  (if backup then backup_dir root disk else Ok (disk, root)) = Raise FileNotFoundError
  ∨ ∃ p, (if backup then backup_dir root disk else Ok (disk, root)) = Ok (disk, p).
Proof.
  intros Hroot. destruct backup; [|right; by eexists].
  unfold backup_dir. destruct (disk !! (root +:+ "_backup")); [right; by eexists|].
  rewrite Hroot. by left.
Qed.

(** X19. With [--backup], a root that is there and no backup yet, the
    backup holds the dataset as it was before the run, whatever the run and
    the upload do afterwards, also when one of them raises. *)
Theorem main_backup_holds_the_original (disk : gmap string dataset) (hub : Hub) (ds : dataset) :
  disk !! root = Some ds →
  disk !! (root +:+ "_backup") = None →
  (main upload_to_hub root episodes new_repo_id true disk hub).1.1 !! (root +:+ "_backup")
  = Some ds.
Proof.
  intros Hroot Hb. unfold main.
  destruct (backup_step true disk ds Hroot) as (disk1 & p & -> & Hr & _ & _ & Hcopy & _).
  rewrite Hr. cbn [default from_option id].
  destruct (remove_and_reindex_on_disk ds episodes) as [ds' [e|]].
  - cbn [fst]. rewrite lookup_insert_ne by (apply not_eq_sym, backup_path_ne). by apply Hcopy.
  - destruct (upload_to_hub ds' new_repo_id hub) as [hub' raised]. cbn [fst].
    rewrite lookup_insert_ne by (apply not_eq_sym, backup_path_ne). by apply Hcopy.
Qed.

(** X20. [main] writes to the root only, and with [--backup] to a backup
    path that is free: every other directory that is there, an older backup
    among them, is left as it is, and without [--backup] no backup
    appears. *)
Theorem main_touches_the_root_only (backup : bool) (disk : gmap string dataset) (hub : Hub) :
  let disk' := (main upload_to_hub root episodes new_repo_id backup disk hub).1.1 in
  (∀ k, k ≠ root → is_Some (disk !! k) → disk' !! k = disk !! k)
  ∧ (∀ k, k ≠ root → k ≠ root +:+ "_backup" → disk' !! k = disk !! k)
  ∧ (backup = false → ∀ k, k ≠ root → disk' !! k = disk !! k).
Proof.
  intros disk'. unfold disk', main.
  destruct (disk !! root) as [ds|] eqn:Hroot.
  - destruct (backup_step backup disk ds Hroot) as (disk1 & p & -> & Hr & Hsome & Hne & _ & Hoff).
    rewrite Hr. cbn [default from_option id].
    destruct (remove_and_reindex_on_disk ds episodes) as [ds' [e|]];
      [|destruct (upload_to_hub ds' new_repo_id hub) as [hub' raised]]; cbn [fst];
      (split; [|split]).
    all: try (intros k Hk Hs; rewrite lookup_insert_ne by done; by apply Hsome).
    all: try (intros k Hk Hb; rewrite lookup_insert_ne by done; by apply Hne).
    all: intros Hf k Hk; rewrite lookup_insert_ne by done; by rewrite (Hoff Hf).
  - destruct (backup_step_missing backup disk Hroot) as [->|[p ->]]; [by repeat split|].
    rewrite Hroot. cbn [default from_option id].
    destruct (remove_and_reindex_on_disk missing_root episodes) as [ds' [e|]];
      [|destruct (upload_to_hub ds' new_repo_id hub) as [hub' raised]]; by repeat split.
Qed.

(** X21. [main] uploads after a run that completes, and then the dataset
    that the run has left; when the run raises an exception of Python,
    [main] raises the same exception, nothing is uploaded and the hub is as
    before, and the root holds what the run had written by then. *)
Theorem main_uploads_a_completed_run (backup : bool) (disk : gmap string dataset) (hub : Hub)
    (ds : dataset) :
  disk !! root = Some ds →
  let result := main upload_to_hub root episodes new_repo_id backup disk hub in
  (∀ ds', remove_and_reindex ds episodes = Ok ds' →
          result.1.1 !! root = Some ds'
          ∧ result.1.2 = (upload_to_hub ds' new_repo_id hub).1
          ∧ result.2 = (upload_to_hub ds' new_repo_id hub).2)
  ∧ (∀ e, remove_and_reindex ds episodes = Raise e →
          e ≠ UnsupportedFloat →
          result.1.2 = hub ∧ result.2 = Some e
          ∧ result.1.1 !! root = Some (remove_and_reindex_on_disk ds episodes).1).
Proof.
  intros Hroot result. unfold result, main.
  destruct (backup_step backup disk ds Hroot) as (disk1 & p & -> & Hr & _).
  rewrite Hr. cbn [default from_option id]. split.
  - intros ds' ->%on_disk_Ok.
    destruct (upload_to_hub ds' new_repo_id hub) as [hub' raised]. cbn [fst snd].
    by rewrite lookup_insert_eq.
  - intros e [ds' ->]%on_disk_Raise _. cbn [fst snd]. by rewrite lookup_insert_eq.
Qed.

(** X22. Under a root that is not there the run finds no file to delete,
    lists no index, renames nothing and raises [FileNotFoundError] when it
    opens [episodes.jsonl], whatever the removal list; so [main] raises
    [FileNotFoundError] and changes neither the disk nor the hub, with or
    without [--backup], where the exception may also come from the copy of
    the backup. *)
Theorem main_on_a_missing_root (backup : bool) (disk : gmap string dataset) (hub : Hub) :
  disk !! root = None →
  remove_and_reindex missing_root episodes = Raise FileNotFoundError
  ∧ main upload_to_hub root episodes new_repo_id backup disk hub
    = (disk, hub, Some FileNotFoundError).
Proof.
  intros Hroot. split.
  - apply on_disk_Raise. exists missing_root. apply run_on_missing_root.
  - unfold main.
    destruct (backup_step_missing backup disk Hroot) as [->|[p ->]]; [done|].
    rewrite Hroot. cbn [default from_option id]. by rewrite run_on_missing_root.
Qed.

End main_properties.


Lemma main_backup_holds_the_original_witness :
  let disk : gmap string dataset := {["/data/pick" := sample [0; 1; 2]]} in
  disk !! "/data/pick" = Some (sample [0; 1; 2])
  ∧ disk !! "/data/pick_backup" = None
  ∧ (main recording_upload "/data/pick" [1] "user/pick" true disk []).1.1
      !! "/data/pick_backup" = Some (sample [0; 1; 2]).
Proof.
  intros disk.
  assert (disk !! "/data/pick" = Some (sample [0; 1; 2])) as Hroot by (vm_compute; reflexivity).
  assert (disk !! "/data/pick_backup" = None) as Hb by (vm_compute; reflexivity).
  split; [exact Hroot|]. split; [exact Hb|].
  exact (main_backup_holds_the_original recording_upload "/data/pick" [1] "user/pick"
           disk [] (sample [0; 1; 2]) Hroot Hb).
Defined.

Lemma main_uploads_a_completed_run_witness :
  let disk : gmap string dataset := {["/data/pick" := sample [0; 1; 2]]} in
  let ds' := outcome (sample [0; 1; 2]) [1] in
  let result := main recording_upload "/data/pick" [1] "user/pick" false disk [] in
  disk !! "/data/pick" = Some (sample [0; 1; 2])
  ∧ remove_and_reindex (sample [0; 1; 2]) [1] = Ok ds'
  ∧ result.1.1 !! "/data/pick" = Some ds'
  ∧ result.1.2 = (recording_upload ds' "user/pick" []).1
  ∧ result.2 = (recording_upload ds' "user/pick" []).2.
Proof.
  intros disk ds' result.
  assert (disk !! "/data/pick" = Some (sample [0; 1; 2])) as Hroot by (vm_compute; reflexivity).
  assert (remove_and_reindex (sample [0; 1; 2]) [1] = Ok ds') as Hrun
    by (vm_compute; reflexivity).
  split; [exact Hroot|]. split; [exact Hrun|].
  exact (proj1 (main_uploads_a_completed_run recording_upload "/data/pick" [1] "user/pick"
                  false disk [] (sample [0; 1; 2]) Hroot) ds' Hrun).
Defined.

Lemma main_on_a_missing_root_witness :
  let disk : gmap string dataset := {["/data/place" := sample [0; 1; 2]]} in
  disk !! "/data/pick" = None
  ∧ remove_and_reindex missing_root [1] = Raise FileNotFoundError
  ∧ main recording_upload "/data/pick" [1] "user/pick" true disk []
    = (disk, [], Some FileNotFoundError).
Proof.
  intros disk.
  assert (disk !! "/data/pick" = None) as Hroot by (vm_compute; reflexivity).
  split; [exact Hroot|].
  exact (main_on_a_missing_root recording_upload "/data/pick" [1] "user/pick" true disk []
           Hroot).
Defined.
